(** * SceneManager: texture and material registries, shader-state binding

    A shallow embedding of [SceneManager.cpp] (CS-330 final project): the
    texture registry ([CreateGLTexture], [BindGLTextures],
    [DestroyGLTextures], [FindTextureID], [FindTextureSlot]), the material
    registry ([FindMaterial], [DefineObjectMaterials]), the per-draw
    shader setters ([SetTransformations], [SetShaderColor],
    [SetShaderTexture], [SetTextureUVScale], [SetShaderMaterial]) and the
    scene set-up ([LoadSceneTextures], [SetupSceneLights]).

    C++ [int] and [GLuint] values are integers in [Z]; a [float] is carried
    as its binary32 bit pattern (the code only copies floats around, the
    arithmetic on them happens inside GLM); an access outside an array, or
    through a null pointer, is undefined behaviour and is the [None] outcome
    of the method monad [M]. *)

From Equations Require Import Equations.
From stdpp Require Import base option strings list.
From stdpp Require Import pretty.
From Stdlib Require Import ZArith Lia.

Local Open Scope Z_scope.

(** ** Values *)

(** IEEE-754 binary32 bit pattern of a C++ [float]. *)
Definition float := Z.

(** The float literals the scene code uses, as bit patterns. *)
Definition f0_0 : float := 0x00000000.
Definition f1_0 : float := 0x3F800000.
Definition f0_1 : float := 0x3DCCCCCD.
Definition f0_25 : float := 0x3E800000.
Definition f0_75 : float := 0x3F400000.
Definition f16_0 : float := 0x41800000.

Record vec2 := mkvec2 { v2_x : float; v2_y : float }.
Record vec3 := mkvec3 { v3_x : float; v3_y : float; v3_z : float }.
Record vec4 := mkvec4 { v4_r : float; v4_g : float; v4_b : float; v4_a : float }.

(** [glm::mat4]: four column vectors. *)
Record mat4 := mkmat4 { m_c0 : vec4; m_c1 : vec4; m_c2 : vec4; m_c3 : vec4 }.

(** [glm::vec3(s)]: the scalar in all three components. *)
Definition vec3_splat (s : float) : vec3 := mkvec3 s s s.

(** ** The shader uniform sink *)

Inductive uniform_value :=
| UInt (i : Z)
| UBool (b : bool)
| UFloat (f : float)
| UVec2 (v : vec2)
| UVec3 (v : vec3)
| UVec4 (v : vec4)
| UMat4 (m : mat4)
| USampler2D (slot : Z).

(** Modelled from the spec: [ShaderManager] (ShaderManager.h/.cpp) is not
    among the sources.  The spec describes it as "a generic named-uniform
    push interface" [setFloat/setVec2/setVec3/setVec4/setMat4/setInt/
    setBool(name, value)].  The manager is the sequence of pushes it has
    received, oldest first, so both the order of the writes and the current
    value of each uniform can be read off. *)
Definition ShaderManager := list (string * uniform_value).

Definition push_uniform (name : string) (v : uniform_value)
    (sm : ShaderManager) : ShaderManager :=
  sm ++ [(name, v)].

Definition setIntValue (name : string) (i : Z) := push_uniform name (UInt i).
Definition setBoolValue (name : string) (b : bool) := push_uniform name (UBool b).
Definition setFloatValue (name : string) (f : float) := push_uniform name (UFloat f).
Definition setVec2Value (name : string) (v : vec2) := push_uniform name (UVec2 v).
Definition setVec3Value (name : string) (v : vec3) := push_uniform name (UVec3 v).
Definition setVec4Value (name : string) (v : vec4) := push_uniform name (UVec4 v).
Definition setMat4Value (name : string) (m : mat4) := push_uniform name (UMat4 m).
Definition setSampler2DValue (name : string) (slot : Z) :=
  push_uniform name (USampler2D slot).

(** Current value of a uniform: the most recent push under that name. *)
Fixpoint uniform (name : string) (sm : ShaderManager) : option uniform_value :=
  match sm with
  | [] => None
  | (n, v) :: rest =>
      match uniform name rest with
      | Some v' => Some v'
      | None => if String.eqb n name then Some v else None
      end
  end.

(** ** The OpenGL context *)

Inductive GLenum :=
| GL_TEXTURE_2D
| GL_TEXTURE_WRAP_S | GL_TEXTURE_WRAP_T | GL_REPEAT
| GL_TEXTURE_MIN_FILTER | GL_TEXTURE_MAG_FILTER | GL_LINEAR
| GL_RGB8 | GL_RGB | GL_RGBA8 | GL_RGBA
| GL_UNSIGNED_BYTE.

(** The calls the scene manager issues.  [GlGenTextures] records the name
    the driver handed out; [GlActiveTexture u] stands for
    [glActiveTexture(GL_TEXTURE0 + u)]. *)
Inductive gl_call :=
| GlGenTextures (name : Z)
| GlBindTexture (target : GLenum) (texture : Z)
| GlTexParameteri (target pname param : GLenum)
| GlTexImage2D (target : GLenum) (level : Z) (internalformat : GLenum)
    (width height border : Z) (format type : GLenum) (pixels : list Z)
| GlGenerateMipmap (target : GLenum)
| GlActiveTexture (unit : Z).

(** The context is the sequence of calls made on it, oldest first. *)
Definition GLContext := list gl_call.

(** Texture names handed out so far.  The source never calls
    [glDeleteTextures], so every one of them is still allocated. *)
Fixpoint texture_names (gl : GLContext) : list Z :=
  match gl with
  | [] => []
  | GlGenTextures name :: rest => name :: texture_names rest
  | _ :: rest => texture_names rest
  end.

(** [glGenTextures] returns a previously unused, non-zero name. *)
Definition fresh_texture_name (gl : GLContext) : Z :=
  1 + foldr Z.max 0 (texture_names gl).

(** Replay of the context: the selected texture unit and, per unit, the
    texture bound to [GL_TEXTURE_2D] (most recent binding first). *)
Fixpoint replay_units (gl : GLContext) (active : Z) (bound : list (Z * Z))
    : Z * list (Z * Z) :=
  match gl with
  | [] => (active, bound)
  | GlActiveTexture u :: rest => replay_units rest u bound
  | GlBindTexture GL_TEXTURE_2D t :: rest =>
      replay_units rest active ((active, t) :: bound)
  | _ :: rest => replay_units rest active bound
  end.

Fixpoint binding_of (u : Z) (l : list (Z * Z)) : option Z :=
  match l with
  | [] => None
  | (k, v) :: rest => if k =? u then Some v else binding_of u rest
  end.

(** Texture bound to [GL_TEXTURE_2D] on unit [u]; unit 0 is selected in a
    fresh context. *)
Definition unit_binding (gl : GLContext) (u : Z) : option Z :=
  binding_of u (snd (replay_units gl 0 [])).

(** ** Image decoding *)

(** What [stbi_load] yields for a readable file. *)
Record stbi_image := mkimage {
  img_width : Z;
  img_height : Z;
  img_channels : Z;
  img_pixels : list Z
}.

(** ** The scene manager *)

(** Modelled from the spec: SceneManager.h is not among the sources.
    TextureEntry is "{ tag: string (unique key), handle: opaque GPU resource
    id, slot: integer index assigned at bind time }"; the source uses the
    members [tag] and [ID], and the slot of an entry is its index in
    [m_textureIDs]. *)
Record TEXTURE_INFO := mkTEXTURE_INFO { tex_tag : string; tex_ID : Z }.

(** Modelled from the spec: SceneManager.h is not among the sources.
    MaterialEntry is "{ tag: string (unique key), ambientColor: RGB triple,
    ambientStrength: scalar, diffuseColor: RGB triple, specularColor: RGB
    triple, shininess: scalar }". *)
Record OBJECT_MATERIAL := mkOBJECT_MATERIAL {
  ambientColor : vec3;
  ambientStrength : float;
  diffuseColor : vec3;
  specularColor : vec3;
  shininess : float;
  mat_tag : string
}.

(** Modelled from the spec: SceneManager.h is not among the sources.  "At
    most a fixed maximum count (16, matching the hardware texture-unit
    limit) may be simultaneously bound"; [BindGLTextures] documents "There
    are up to 16 slots".  This is the length of the array [m_textureIDs]. *)
Definition MAX_TEXTURES : Z := 16.

Record SceneManager := mkSceneManager {
  m_pShaderManager : option ShaderManager;
  m_loadedTextures : Z;
  m_textureIDs : list TEXTURE_INFO;
  m_objectMaterials : list OBJECT_MATERIAL
}.

(** The machine a method runs on: the GL context and the object itself. *)
Record World := mkWorld { gl_calls : GLContext; this : SceneManager }.

(** Modelled from the spec: the member declarations are in SceneManager.h,
    which is not among the sources.  The constructor stores the shader
    manager; the texture registry is "a fixed-capacity table populated at
    scene-load time" and the material collection "grows only during scene
    setup", so a new manager holds no texture and no material.  The
    sixteen array entries are default-constructed. *)
Definition SceneManager_new (pShaderManager : option ShaderManager)
    : SceneManager :=
  {| m_pShaderManager := pShaderManager;
     m_loadedTextures := 0;
     m_textureIDs := replicate (Z.to_nat MAX_TEXTURES) (mkTEXTURE_INFO "" 0);
     m_objectMaterials := [] |}.

(** ** The method monad: state passing with undefined behaviour *)

Definition M (A : Type) : Type := World → option (A * World).

Global Instance M_ret : MRet M := λ A a w, Some (a, w).
Global Instance M_bind : MBind M := λ A B f m w,
  match m w with
  | Some (a, w') => f a w'
  | None => None
  end.

(** Undefined behaviour. *)
Definition undefined {A} : M A := λ _, None.

Definition get_this : M SceneManager := λ w, Some (this w, w).

(** A GL call that returns nothing. *)
Definition gl (c : gl_call) : M unit :=
  λ w, Some ((), mkWorld (gl_calls w ++ [c]) (this w)).

(** [glGenTextures(1, &name)]. *)
Definition glGenTextures1 : M Z := λ w,
  let name := fresh_texture_name (gl_calls w) in
  Some (name, mkWorld (gl_calls w ++ [GlGenTextures name]) (this w)).

(** [m_pShaderManager->f(...)] with no null check in front of it. *)
Definition shader (f : ShaderManager → ShaderManager) : M unit := λ w,
  match m_pShaderManager (this w) with
  | Some sm =>
      Some ((), mkWorld (gl_calls w)
                  {| m_pShaderManager := Some (f sm);
                     m_loadedTextures := m_loadedTextures (this w);
                     m_textureIDs := m_textureIDs (this w);
                     m_objectMaterials := m_objectMaterials (this w) |})
  | None => None
  end.

(** [for (int i = 0; i < n; i++) body(i)], for a bound [n] the body leaves
    alone: [count] iterations starting at [i]. *)
Fixpoint for_range (count : nat) (i : Z) (body : Z → M unit) : M unit :=
  match count with
  | O => mret ()
  | S count' => body i ;; for_range count' (i + 1) body
  end.

(** ** Texture registry *)

(** [m_textureIDs[i]], undefined outside the array. *)
Definition texture_at (sc : SceneManager) (i : Z) : option TEXTURE_INFO :=
  if (0 <=? i) && (i <? MAX_TEXTURES) then m_textureIDs sc !! Z.to_nat i
  else None.

(** [m_textureIDs[i].ID = id]. *)
Definition store_texture_ID (i : Z) (id : Z) : M unit := λ w,
  match texture_at (this w) i with
  | Some e =>
      Some ((), mkWorld (gl_calls w)
                  {| m_pShaderManager := m_pShaderManager (this w);
                     m_loadedTextures := m_loadedTextures (this w);
                     m_textureIDs :=
                       <[Z.to_nat i := mkTEXTURE_INFO (tex_tag e) id]>
                         (m_textureIDs (this w));
                     m_objectMaterials := m_objectMaterials (this w) |})
  | None => None
  end.

(** [m_textureIDs[i].tag = t]. *)
Definition store_texture_tag (i : Z) (t : string) : M unit := λ w,
  match texture_at (this w) i with
  | Some e =>
      Some ((), mkWorld (gl_calls w)
                  {| m_pShaderManager := m_pShaderManager (this w);
                     m_loadedTextures := m_loadedTextures (this w);
                     m_textureIDs :=
                       <[Z.to_nat i := mkTEXTURE_INFO t (tex_ID e)]>
                         (m_textureIDs (this w));
                     m_objectMaterials := m_objectMaterials (this w) |})
  | None => None
  end.

(** [m_loadedTextures++]. *)
Definition incr_loadedTextures : M unit := λ w,
  Some ((), mkWorld (gl_calls w)
              {| m_pShaderManager := m_pShaderManager (this w);
                 m_loadedTextures := m_loadedTextures (this w) + 1;
                 m_textureIDs := m_textureIDs (this w);
                 m_objectMaterials := m_objectMaterials (this w) |}).

Section Textures.

(** The image decoder on the files at hand: [None] when the file cannot
    be read or decoded. *)
Variable stbi_load : string → option stbi_image.

(** Console output, the vertical-flip setting of the decoder and the
    release of the host-side pixel buffer are not part of the state. *)
Definition CreateGLTexture (filename : string) (tag : string) : M bool :=
  match stbi_load filename with
  | Some image =>
      let width := img_width image in
      let height := img_height image in
      let colorChannels := img_channels image in
      textureID ← glGenTextures1;
      gl (GlBindTexture GL_TEXTURE_2D textureID);;
      gl (GlTexParameteri GL_TEXTURE_2D GL_TEXTURE_WRAP_S GL_REPEAT);;
      gl (GlTexParameteri GL_TEXTURE_2D GL_TEXTURE_WRAP_T GL_REPEAT);;
      gl (GlTexParameteri GL_TEXTURE_2D GL_TEXTURE_MIN_FILTER GL_LINEAR);;
      gl (GlTexParameteri GL_TEXTURE_2D GL_TEXTURE_MAG_FILTER GL_LINEAR);;
      let store_entry : M bool :=
        gl (GlGenerateMipmap GL_TEXTURE_2D);;
        gl (GlBindTexture GL_TEXTURE_2D 0);;
        sc ← get_this;
        store_texture_ID (m_loadedTextures sc) textureID;;
        store_texture_tag (m_loadedTextures sc) tag;;
        incr_loadedTextures;;
        mret true in
      if colorChannels =? 3 then
        gl (GlTexImage2D GL_TEXTURE_2D 0 GL_RGB8 width height 0 GL_RGB
              GL_UNSIGNED_BYTE (img_pixels image));;
        store_entry
      else if colorChannels =? 4 then
        gl (GlTexImage2D GL_TEXTURE_2D 0 GL_RGBA8 width height 0 GL_RGBA
              GL_UNSIGNED_BYTE (img_pixels image));;
        store_entry
      else
        mret false
  | None => mret false
  end.

End Textures.

Definition BindGLTextures : M unit :=
  sc ← get_this;
  for_range (Z.to_nat (m_loadedTextures sc)) 0 (λ i,
    gl (GlActiveTexture i);;
    sc ← get_this;
    match texture_at sc i with
    | Some e => gl (GlBindTexture GL_TEXTURE_2D (tex_ID e))
    | None => undefined
    end).

Definition DestroyGLTextures : M unit :=
  sc ← get_this;
  for_range (Z.to_nat (m_loadedTextures sc)) 0 (λ i,
    name ← glGenTextures1;
    store_texture_ID i name).

(** The loops of the three finders stop either at the end of the registry
    or on the first match; this is what decreases. *)
Definition scan_measure (size index : Z) (bFound : bool) : nat :=
  (Z.to_nat (size - index) + (if bFound then 0 else 1))%nat.

Lemma scan_measure_found size index :
  index < size →
  (scan_measure size index true < scan_measure size index false)%nat.
Proof. unfold scan_measure. lia. Qed.

Lemma scan_measure_next size index bFound :
  index < size →
  (scan_measure size (index + 1) bFound < scan_measure size index bFound)%nat.
Proof. unfold scan_measure. lia. Qed.

Lemma scan_condition size index bFound :
  (index <? size) && negb bFound = true → index < size ∧ bFound = false.
Proof.
  intros [Hi Hb]%andb_prop. apply Z.ltb_lt in Hi.
  destruct bFound; [discriminate | done].
Qed.

Definition inspect {A} (a : A) : {b | a = b} := exist _ a eq_refl.

(** The conversion of a [uint32_t] to [int], as in
    [textureID = m_textureIDs[index].ID]: a value above [INT_MAX] comes out
    negative. *)
Definition to_int (u : Z) : Z := (u + 2 ^ 31) mod 2 ^ 32 - 2 ^ 31.

(** The [while] loop of [FindTextureID], entered with the current values of
    its three locals. *)
Equations? FindTextureID_while (sc : SceneManager) (tag : string)
    (textureID index : Z) (bFound : bool) : option Z
    by wf (scan_measure (m_loadedTextures sc) index bFound) lt :=
  FindTextureID_while sc tag textureID index bFound
    with inspect ((index <? m_loadedTextures sc) && negb bFound) => {
    | exist _ false _ := Some textureID
    | exist _ true Hcond with texture_at sc index => {
        | None := None
        | Some e with String.eqb (tex_tag e) tag => {
            | true := FindTextureID_while sc tag (to_int (tex_ID e)) index true
            | false := FindTextureID_while sc tag textureID (index + 1) bFound } } }.
Proof.
  all: apply scan_condition in Hcond as [Hi ->].
  - by apply scan_measure_found.
  - by apply scan_measure_next.
Qed.

Definition FindTextureID (tag : string) (sc : SceneManager) : option Z :=
  FindTextureID_while sc tag (-1) 0 false.

(** The [while] loop of [FindTextureSlot]. *)
Equations? FindTextureSlot_while (sc : SceneManager) (tag : string)
    (textureSlot index : Z) (bFound : bool) : option Z
    by wf (scan_measure (m_loadedTextures sc) index bFound) lt :=
  FindTextureSlot_while sc tag textureSlot index bFound
    with inspect ((index <? m_loadedTextures sc) && negb bFound) => {
    | exist _ false _ := Some textureSlot
    | exist _ true Hcond with texture_at sc index => {
        | None := None
        | Some e with String.eqb (tex_tag e) tag => {
            | true := FindTextureSlot_while sc tag index index true
            | false := FindTextureSlot_while sc tag textureSlot (index + 1) bFound } } }.
Proof.
  all: apply scan_condition in Hcond as [Hi ->].
  - by apply scan_measure_found.
  - by apply scan_measure_next.
Qed.

Definition FindTextureSlot (tag : string) (sc : SceneManager) : option Z :=
  FindTextureSlot_while sc tag (-1) 0 false.

(** ** Material registry *)

(** [m_objectMaterials.push_back(m)]. *)
Definition push_back (m : OBJECT_MATERIAL) (v : list OBJECT_MATERIAL)
    : list OBJECT_MATERIAL :=
  v ++ [m].

(** [m_objectMaterials.size()]. *)
Definition vector_size (v : list OBJECT_MATERIAL) : Z := Z.of_nat (length v).

(** [m_objectMaterials[index]], undefined outside the vector. *)
Definition material_at (v : list OBJECT_MATERIAL) (index : Z)
    : option OBJECT_MATERIAL :=
  if 0 <=? index then v !! Z.to_nat index else None.

(** The five assignments of [FindMaterial] into its out-parameter; the tag
    of the out-parameter is not assigned. *)
Definition copy_material (from material : OBJECT_MATERIAL) : OBJECT_MATERIAL :=
  {| ambientColor := ambientColor from;
     ambientStrength := ambientStrength from;
     diffuseColor := diffuseColor from;
     specularColor := specularColor from;
     shininess := shininess from;
     mat_tag := mat_tag material |}.

(** The [while] loop of [FindMaterial]: the locals [index] and [bFound] and
    the out-parameter [material] when the loop is left. *)
Equations? FindMaterial_while (mats : list OBJECT_MATERIAL) (t : string)
    (material : OBJECT_MATERIAL) (index : Z) (bFound : bool)
    : option (Z * bool * OBJECT_MATERIAL)
    by wf (scan_measure (vector_size mats) index bFound) lt :=
  FindMaterial_while mats t material index bFound
    with inspect ((index <? vector_size mats) && negb bFound) => {
    | exist _ false _ := Some (index, bFound, material)
    | exist _ true Hcond with material_at mats index => {
        | None := None
        | Some e with String.eqb (mat_tag e) t => {
            | true := FindMaterial_while mats t (copy_material e material) index true
            | false := FindMaterial_while mats t material (index + 1) bFound } } }.
Proof.
  all: apply scan_condition in Hcond as [Hi ->].
  - by apply scan_measure_found.
  - by apply scan_measure_next.
Qed.

(** [FindMaterial(tag, material)]: the returned flag and the out-parameter.
    The last statement is [return(true)], not [return(bFound)]. *)
Definition FindMaterial (t : string) (material : OBJECT_MATERIAL)
    (sc : SceneManager) : option (bool * OBJECT_MATERIAL) :=
  if vector_size (m_objectMaterials sc) =? 0 then Some (false, material)
  else
    match FindMaterial_while (m_objectMaterials sc) t material 0 false with
    | Some (index, bFound, material') => Some (true, material')
    | None => None
    end.

(** [m_objectMaterials.push_back(m)] as a step of a method. *)
Definition push_material (m : OBJECT_MATERIAL) : M unit := λ w,
  Some ((), mkWorld (gl_calls w)
              {| m_pShaderManager := m_pShaderManager (this w);
                 m_loadedTextures := m_loadedTextures (this w);
                 m_textureIDs := m_textureIDs (this w);
                 m_objectMaterials := push_back m (m_objectMaterials (this w)) |}).

(** ** Shader state *)

Definition g_ModelName : string := "model".
Definition g_ColorValueName : string := "objectColor".
Definition g_TextureValueName : string := "objectTexture".
Definition g_UseTextureName : string := "bUseTexture".

(** The outcome of a call that reads the object without changing it. *)
Definition of_option {A} (o : option A) : M A := λ w,
  match o with
  | Some a => Some (a, w)
  | None => None
  end.

Section Transformations.

(** GLM, as the source uses it: [glm::radians], the matrix builders of
    glm/gtx/transform.hpp and the [mat4] product.  They compute in
    floating point inside the library; the scene manager only combines
    their results. *)
Variable glm_radians : float → float.
Variable glm_scale : vec3 → mat4.
Variable glm_rotate : float → vec3 → mat4.
Variable glm_translate : vec3 → mat4.
Variable mat4_mul : mat4 → mat4 → mat4.

Local Notation "a ⊗ b" := (mat4_mul a b) (at level 40, left associativity).

Definition SetTransformations (scaleXYZ : vec3)
    (XrotationDegrees YrotationDegrees ZrotationDegrees : float)
    (positionXYZ : vec3) : M unit :=
  let scale := glm_scale scaleXYZ in
  let rotationX :=
    glm_rotate (glm_radians XrotationDegrees) (mkvec3 f1_0 f0_0 f0_0) in
  let rotationY :=
    glm_rotate (glm_radians YrotationDegrees) (mkvec3 f0_0 f1_0 f0_0) in
  let rotationZ :=
    glm_rotate (glm_radians ZrotationDegrees) (mkvec3 f0_0 f0_0 f1_0) in
  let translation := glm_translate positionXYZ in
  let modelView := translation ⊗ rotationX ⊗ rotationY ⊗ rotationZ ⊗ scale in
  sc ← get_this;
  match m_pShaderManager sc with
  | Some _ => shader (setMat4Value g_ModelName modelView)
  | None => mret ()
  end.

(** The matrix in the words of the specification:
    [translate(position) * rotateX(rx) * rotateY(ry) * rotateZ(rz) *
    scale(s)], the product read left to right as C++ reads it. *)
Definition Compose_spec (s : vec3) (rx ry rz : float) (position : vec3)
    : mat4 :=
  let translate := glm_translate in
  let rotateX a := glm_rotate (glm_radians a) (mkvec3 f1_0 f0_0 f0_0) in
  let rotateY a := glm_rotate (glm_radians a) (mkvec3 f0_0 f1_0 f0_0) in
  let rotateZ a := glm_rotate (glm_radians a) (mkvec3 f0_0 f0_0 f1_0) in
  translate position ⊗ rotateX rx ⊗ rotateY ry ⊗ rotateZ rz ⊗ glm_scale s.

End Transformations.

Definition SetShaderColor
    (redColorValue greenColorValue blueColorValue alphaValue : float)
    : M unit :=
  let currentColor :=
    mkvec4 redColorValue greenColorValue blueColorValue alphaValue in
  sc ← get_this;
  match m_pShaderManager sc with
  | Some _ =>
      shader (setIntValue g_UseTextureName 0);;
      shader (setVec4Value g_ColorValueName currentColor)
  | None => mret ()
  end.

Definition SetShaderTexture (textureTag : string) : M unit :=
  sc ← get_this;
  match m_pShaderManager sc with
  | Some _ =>
      shader (setIntValue g_UseTextureName 1);;
      sc ← get_this;
      textureID ← of_option (FindTextureSlot textureTag sc);
      shader (setSampler2DValue g_TextureValueName textureID)
  | None => mret ()
  end.

Definition SetTextureUVScale (u v : float) : M unit :=
  sc ← get_this;
  match m_pShaderManager sc with
  | Some _ => shader (setVec2Value "UVscale" (mkvec2 u v))
  | None => mret ()
  end.

(** The local [OBJECT_MATERIAL material] is declared without an
    initialiser; [material] is whatever it holds at that point. *)
Definition SetShaderMaterial (material : OBJECT_MATERIAL)
    (materialTag : string) : M unit :=
  sc ← get_this;
  if vector_size (m_objectMaterials sc) >? 0 then
    '(bReturn, material) ← of_option (FindMaterial materialTag material sc);
    if bReturn : bool then
      shader (setVec3Value "material.ambientColor" (ambientColor material));;
      shader (setFloatValue "material.ambientStrength" (ambientStrength material));;
      shader (setVec3Value "material.diffuseColor" (diffuseColor material));;
      shader (setVec3Value "material.specularColor" (specularColor material));;
      shader (setFloatValue "material.shininess" (shininess material))
    else mret ()
  else mret ().

(** ** Scene set-up *)

Section Scene.

Variable stbi_load : string → option stbi_image.

Definition LoadSceneTextures : M unit :=
  CreateGLTexture stbi_load "../../Utilities/textures/ceramic.jpg" "ceramic";;
  CreateGLTexture stbi_load "../../Utilities/textures/porcelain.jpg" "porcelain";;
  CreateGLTexture stbi_load "../../Utilities/textures/stainless.jpg" "metal";;
  CreateGLTexture stbi_load "../../Utilities/textures/paper.jpg" "paper";;
  CreateGLTexture stbi_load "../../Utilities/textures/plastic.jpg" "plastic";;
  CreateGLTexture stbi_load "../../Utilities/textures/drywall.jpg" "drywall";;
  BindGLTextures.

End Scene.

Definition DefineObjectMaterials : M unit :=
  let ambC := f0_1 in
  let ambS := f0_75 in
  let difC := f0_25 in
  let specC := f0_75 in
  let shin := f16_0 in
  let material (t : string) :=
    {| mat_tag := t;
       ambientColor := vec3_splat ambC;
       ambientStrength := ambS;
       diffuseColor := vec3_splat difC;
       specularColor := vec3_splat specC;
       shininess := shin |} in
  push_material (material "ceramic");;
  push_material (material "porcelain");;
  push_material (material "metal");;
  push_material (material "paper");;
  push_material (material "plastic");;
  push_material (material "drywall").

(** ** Histories of the texture registry *)

(** The array has its sixteen entries and the counter stays within it. *)
Definition registry_ok (sc : SceneManager) : Prop :=
  0 ≤ m_loadedTextures sc ≤ MAX_TEXTURES ∧
  length (m_textureIDs sc) = Z.to_nat MAX_TEXTURES.

(** The entries in use: the first [m_loadedTextures] of the array. *)
Definition registered_entries (sc : SceneManager) : list TEXTURE_INFO :=
  take (Z.to_nat (m_loadedTextures sc)) (m_textureIDs sc).

Definition registered_tags (sc : SceneManager) : list string :=
  tex_tag <$> registered_entries sc.

(** Position of the first entry carrying [tag], [-1] when there is none. *)
Definition first_slot (tag : string) (entries : list TEXTURE_INFO) : Z :=
  match list_find (λ e, tex_tag e = tag) entries with
  | Some (i, _) => Z.of_nat i
  | None => -1
  end.

(** The calls [BindGLTextures] makes for the entries from slot [i] on. *)
Fixpoint bind_calls (i : Z) (entries : list TEXTURE_INFO) : list gl_call :=
  match entries with
  | [] => []
  | e :: rest =>
      GlActiveTexture i :: GlBindTexture GL_TEXTURE_2D (tex_ID e)
        :: bind_calls (i + 1) rest
  end.

(** The operations on the texture registry, as a caller issues them. *)
Inductive texture_op :=
| OpCreateGLTexture (filename tag : string)
| OpBindGLTextures
| OpDestroyGLTextures.

Section Histories.

Variable stbi_load : string → option stbi_image.

Definition perform (op : texture_op) : M unit :=
  match op with
  | OpCreateGLTexture filename tag =>
      CreateGLTexture stbi_load filename tag;; mret ()
  | OpBindGLTextures => BindGLTextures
  | OpDestroyGLTextures => DestroyGLTextures
  end.

Fixpoint run (ops : list texture_op) : M unit :=
  match ops with
  | [] => mret ()
  | op :: rest => perform op;; run rest
  end.

(** The file decodes to an image [CreateGLTexture] uploads. *)
Definition loadable (filename : string) : bool :=
  match stbi_load filename with
  | Some image => (img_channels image =? 3) || (img_channels image =? 4)
  | None => false
  end.

(** The tags of the successful registrations of a history, in order. *)
Fixpoint registrations (ops : list texture_op) : list string :=
  match ops with
  | [] => []
  | OpCreateGLTexture filename tag :: rest =>
      if loadable filename then tag :: registrations rest
      else registrations rest
  | _ :: rest => registrations rest
  end.

End Histories.

(** The state of the shader manager the object points to. *)
Definition with_shader (pShaderManager : option ShaderManager)
    (sc : SceneManager) : SceneManager :=
  {| m_pShaderManager := pShaderManager;
     m_loadedTextures := m_loadedTextures sc;
     m_textureIDs := m_textureIDs sc;
     m_objectMaterials := m_objectMaterials sc |}.

(** ** Files and scenes used in the examples *)

(** Three image files: RGB, RGBA and single-channel; nothing else exists. *)
Definition sample_files (filename : string) : option stbi_image :=
  if String.eqb filename "a.jpg" then Some (mkimage 2 2 3 [])
  else if String.eqb filename "b.png" then Some (mkimage 2 2 4 [])
  else if String.eqb filename "grey.png" then Some (mkimage 2 2 1 [])
  else None.

(** A new scene manager with a shader manager that has received nothing,
    on a fresh GL context. *)
Definition fresh_world : World := mkWorld [] (SceneManager_new (Some [])).

(** What an uninitialised [OBJECT_MATERIAL] local may hold. *)
Definition stale_material : OBJECT_MATERIAL :=
  {| ambientColor := mkvec3 1 2 3;
     ambientStrength := 4;
     diffuseColor := mkvec3 5 6 7;
     specularColor := mkvec3 8 9 10;
     shininess := 11;
     mat_tag := "" |}.

(** The GL calls of [CreateGLTexture] up to the test on the channel count,
    and from there to the end for an image that is uploaded. *)
Definition create_prologue (name : Z) : list gl_call :=
  [GlGenTextures name; GlBindTexture GL_TEXTURE_2D name;
   GlTexParameteri GL_TEXTURE_2D GL_TEXTURE_WRAP_S GL_REPEAT;
   GlTexParameteri GL_TEXTURE_2D GL_TEXTURE_WRAP_T GL_REPEAT;
   GlTexParameteri GL_TEXTURE_2D GL_TEXTURE_MIN_FILTER GL_LINEAR;
   GlTexParameteri GL_TEXTURE_2D GL_TEXTURE_MAG_FILTER GL_LINEAR].

Definition create_upload (image : stbi_image) : list gl_call :=
  [GlTexImage2D GL_TEXTURE_2D 0
     (if img_channels image =? 3 then GL_RGB8 else GL_RGBA8)
     (img_width image) (img_height image) 0
     (if img_channels image =? 3 then GL_RGB else GL_RGBA)
     GL_UNSIGNED_BYTE (img_pixels image);
   GlGenerateMipmap GL_TEXTURE_2D; GlBindTexture GL_TEXTURE_2D 0].

(** [v] has the shader manager, the texture count, the texture tags and
    the materials of [w]. *)
Definition same_registry (w v : World) : Prop :=
  m_pShaderManager (this v) = m_pShaderManager (this w) ∧
  m_loadedTextures (this v) = m_loadedTextures (this w) ∧
  tex_tag <$> m_textureIDs (this v) = tex_tag <$> m_textureIDs (this w) ∧
  m_objectMaterials (this v) = m_objectMaterials (this w).

(** The world a history of texture operations leads to, starting from
    [fresh_world] with the files of [sample_files]. *)
Definition world_after (ops : list texture_op) : World :=
  match run sample_files ops fresh_world with
  | Some (_, w) => w
  | None => fresh_world
  end.

(** The scene manager once [DefineObjectMaterials] has run in
    [fresh_world]. *)
Definition scene_with_materials : World :=
  match DefineObjectMaterials fresh_world with
  | Some (_, w) => w
  | None => fresh_world
  end.

(** The five pushes of [SetShaderMaterial] for the material [m]. *)
Definition material_uniforms (m : OBJECT_MATERIAL)
    : list (string * uniform_value) :=
  [("material.ambientColor", UVec3 (ambientColor m));
   ("material.ambientStrength", UFloat (ambientStrength m));
   ("material.diffuseColor", UVec3 (diffuseColor m));
   ("material.specularColor", UVec3 (specularColor m));
   ("material.shininess", UFloat (shininess m))].

(** The object with its material vector replaced. *)
Definition with_materials (mats : list OBJECT_MATERIAL) (sc : SceneManager)
    : SceneManager :=
  {| m_pShaderManager := m_pShaderManager sc;
     m_loadedTextures := m_loadedTextures sc;
     m_textureIDs := m_textureIDs sc;
     m_objectMaterials := mats |}.

(** Two definitions of the tag "ceramic" with different values, and a
    third one to be added. *)
Definition ceramic_matte : OBJECT_MATERIAL :=
  {| ambientColor := vec3_splat f0_1;
     ambientStrength := f0_75;
     diffuseColor := vec3_splat f0_25;
     specularColor := vec3_splat f0_0;
     shininess := f1_0;
     mat_tag := "ceramic" |}.

Definition ceramic_glossy : OBJECT_MATERIAL :=
  {| ambientColor := vec3_splat f0_25;
     ambientStrength := f0_1;
     diffuseColor := vec3_splat f0_75;
     specularColor := vec3_splat f0_75;
     shininess := f16_0;
     mat_tag := "ceramic" |}.

Definition paper_plain : OBJECT_MATERIAL :=
  {| ambientColor := vec3_splat f0_1;
     ambientStrength := f0_1;
     diffuseColor := vec3_splat f0_1;
     specularColor := vec3_splat f0_0;
     shininess := f1_0;
     mat_tag := "paper" |}.

(** ** Lights *)

(** Further float literals of the scene code, as bit patterns. *)
Definition f3_0 : float := 0x40400000.
Definition f6_0 : float := 0x40C00000.
Definition f12_0 : float := 0x41400000.
Definition f25_0 : float := 0x41C80000.
Definition f0_12 : float := 0x3DF5C28F.
Definition f0_15 : float := 0x3E19999A.

(** Unary minus on a [float]: the sign bit flipped. *)
Definition float_neg (f : float) : float := Z.lxor f 0x80000000.

(** [std::to_string(int)]: the decimal numeral. *)
Definition to_string (i : Z) : string := pretty i.

(** The calls go through [m_pShaderManager] with no null check.  The
    overload of [setVec3Value] that takes three floats builds the vector
    from them. *)
Definition SetupSceneLights : M unit :=
  let amb := f0_1 in
  let dif := f0_12 in
  let H := f6_0 in
  let R := f12_0 in
  let corners :=
    [mkvec3 R H (float_neg R); mkvec3 R H R;
     mkvec3 (float_neg R) H R; mkvec3 (float_neg R) H (float_neg R)] in
  let corner (i : Z) : M vec3 :=
    of_option (if 0 <=? i then corners !! Z.to_nat i else None) in
  for_range 3 0 (λ i,
    let base := "lightSources[" +:+ to_string i +:+ "]" in
    position ← corner i;
    shader (setVec3Value (base +:+ ".position") position);;
    shader (setVec3Value (base +:+ ".ambientColor") (mkvec3 amb amb amb));;
    shader (setVec3Value (base +:+ ".diffuseColor") (mkvec3 dif dif dif));;
    shader (setVec3Value (base +:+ ".specularColor") (mkvec3 f0_0 f0_0 f0_0));;
    shader (setFloatValue (base +:+ ".specularIntensity") f0_0);;
    shader (setFloatValue (base +:+ ".focalStrength") f3_0));;
  let base := "lightSources[3]" in
  position ← corner 3;
  shader (setVec3Value (base +:+ ".position") position);;
  shader (setVec3Value (base +:+ ".ambientColor") (mkvec3 amb amb amb));;
  shader (setVec3Value (base +:+ ".diffuseColor") (mkvec3 dif dif dif));;
  shader (setVec3Value (base +:+ ".specularColor") (mkvec3 f0_25 f0_25 f0_25));;
  shader (setFloatValue (base +:+ ".specularIntensity") f0_15);;
  shader (setFloatValue (base +:+ ".focalStrength") f25_0);;
  shader (setBoolValue "bUseLighting" true).



(** ** Vocabulary of the further properties *)

(** The files and tags of [LoadSceneTextures], as a history. *)
Definition scene_textures : list texture_op :=
  [OpCreateGLTexture "../../Utilities/textures/ceramic.jpg" "ceramic";
   OpCreateGLTexture "../../Utilities/textures/porcelain.jpg" "porcelain";
   OpCreateGLTexture "../../Utilities/textures/stainless.jpg" "metal";
   OpCreateGLTexture "../../Utilities/textures/paper.jpg" "paper";
   OpCreateGLTexture "../../Utilities/textures/plastic.jpg" "plastic";
   OpCreateGLTexture "../../Utilities/textures/drywall.jpg" "drywall";
   OpBindGLTextures].

(** The tags of [DefineObjectMaterials], in the order of definition. *)
Definition scene_material_tags : list string :=
  ["ceramic"; "porcelain"; "metal"; "paper"; "plastic"; "drywall"].


(** Every image file is a 2x2 RGB image. *)
Definition all_rgb_files (filename : string) : option stbi_image :=
  Some (mkimage 2 2 3 []).

(** The number of creations in a history. *)
Fixpoint creations (ops : list texture_op) : Z :=
  match ops with
  | [] => 0
  | OpCreateGLTexture _ _ :: rest => 1 + creations rest
  | _ :: rest => creations rest
  end.

(** The selected texture unit of a context; unit 0 in a fresh one. *)
Definition active_unit (gl : GLContext) : Z := fst (replay_units gl 0 []).

(** A scene manager with no shader manager attached. *)
Definition detached_world : World := mkWorld [] (SceneManager_new None).


(** The uniforms a draw block made of [SetTransformations],
    [SetShaderTexture] and [SetShaderMaterial] writes. *)
Definition block_uniform_names : list string :=
  [g_ModelName; g_UseTextureName; g_TextureValueName;
   "material.ambientColor"; "material.ambientStrength";
   "material.diffuseColor"; "material.specularColor"; "material.shininess"].

(** Stand-ins for the GLM functions where an example needs some: every
    matrix is the zero matrix. *)
Definition mat4_zero : mat4 :=
  let z := mkvec4 f0_0 f0_0 f0_0 f0_0 in mkmat4 z z z z.

(** [SetTransformations] with the stand-ins. *)
Definition SetTransformations_zero : vec3 → float → float → float → vec3 → M unit :=
  SetTransformations (λ a, a) (λ _, mat4_zero) (λ _ _, mat4_zero)
    (λ _, mat4_zero) (λ _ _, mat4_zero).

(** * Properties *)

(** Unfolds the steps of a method. *)
Ltac run_M :=
  unfold mbind, M_bind, mret, M_ret, gl, glGenTextures1, get_this,
    incr_loadedTextures, push_material, of_option, undefined;
  cbn -[fresh_texture_name MAX_TEXTURES].

(** One turn of a [while] loop defined above, from its defining equations. *)
Ltac while_unfold :=
  match goal with
  | |- ?f = _ => funelim f
  end;
  repeat match goal with
    | H : (_ && _) = _ |- _ => rewrite H
    | H : texture_at _ _ = _ |- _ => rewrite H
    | H : material_at _ _ = _ |- _ => rewrite H
    | H : String.eqb _ _ = _ |- _ => rewrite H
    end;
  reflexivity.

Ltac in_range :=
  symmetry; apply andb_true_intro; split;
  [apply Z.leb_le | apply Z.ltb_lt]; unfold MAX_TEXTURES in *; lia.

(** ** The loops *)

Lemma FindTextureSlot_while_step sc tag slot index bFound :
  FindTextureSlot_while sc tag slot index bFound =
    if (index <? m_loadedTextures sc) && negb bFound then
      match texture_at sc index with
      | None => None
      | Some e =>
          if String.eqb (tex_tag e) tag
          then FindTextureSlot_while sc tag index index true
          else FindTextureSlot_while sc tag slot (index + 1) bFound
      end
    else Some slot.
Proof. while_unfold. Qed.

Lemma FindTextureID_while_step sc tag id index bFound :
  FindTextureID_while sc tag id index bFound =
    if (index <? m_loadedTextures sc) && negb bFound then
      match texture_at sc index with
      | None => None
      | Some e =>
          if String.eqb (tex_tag e) tag
          then FindTextureID_while sc tag (to_int (tex_ID e)) index true
          else FindTextureID_while sc tag id (index + 1) bFound
      end
    else Some id.
Proof. while_unfold. Qed.

Lemma FindMaterial_while_step mats t material index bFound :
  FindMaterial_while mats t material index bFound =
    if (index <? vector_size mats) && negb bFound then
      match material_at mats index with
      | None => None
      | Some e =>
          if String.eqb (mat_tag e) t
          then FindMaterial_while mats t (copy_material e material) index true
          else FindMaterial_while mats t material (index + 1) bFound
      end
    else Some (index, bFound, material).
Proof. while_unfold. Qed.

Lemma for_range_invariant (P : Z → World → Prop) (body : Z → M unit) :
  ∀ (count : nat) (i : Z) (w : World),
  P i w →
  (∀ j v, i ≤ j < i + Z.of_nat count → P j v →
     ∃ v', body j v = Some ((), v') ∧ P (j + 1) v') →
  ∃ w', for_range count i body w = Some ((), w') ∧ P (i + Z.of_nat count) w'.
Proof.
  induction count as [|count IH]; intros i w HP Hbody.
  - exists w. split; [done|]. by replace (i + Z.of_nat 0) with i by lia.
  - destruct (Hbody i w) as (v & Hv & HPv); [lia | done |].
    destruct (IH (i + 1) v) as (w' & Hw' & HPw'); [done | |].
    { intros j u Hj. apply Hbody. lia. }
    exists w'. split.
    + cbn [for_range]. run_M. by rewrite Hv.
    + by replace (i + Z.of_nat (S count)) with (i + 1 + Z.of_nat count) by lia.
Qed.

(** ** Reading the texture array *)

Lemma texture_at_Some sc i :
  length (m_textureIDs sc) = Z.to_nat MAX_TEXTURES →
  0 ≤ i < MAX_TEXTURES → is_Some (texture_at sc i).
Proof.
  intros Hl Hi. unfold texture_at.
  replace ((0 <=? i) && (i <? MAX_TEXTURES)) with true by in_range.
  apply lookup_lt_is_Some. lia.
Qed.

Lemma texture_at_None sc i :
  ¬ (0 ≤ i < MAX_TEXTURES) → texture_at sc i = None.
Proof.
  intros Hi. unfold texture_at.
  destruct (0 <=? i) eqn:H0; [|done].
  destruct (i <? MAX_TEXTURES) eqn:H1; [|done].
  apply Z.leb_le in H0. apply Z.ltb_lt in H1. lia.
Qed.

Lemma registered_entries_length sc :
  registry_ok sc →
  length (registered_entries sc) = Z.to_nat (m_loadedTextures sc).
Proof.
  intros [Hn Hl]. unfold registered_entries. rewrite length_take. lia.
Qed.

Lemma texture_at_registered sc i :
  registry_ok sc → 0 ≤ i < m_loadedTextures sc →
  texture_at sc i = registered_entries sc !! Z.to_nat i.
Proof.
  intros [Hn Hl] Hi. unfold texture_at, registered_entries.
  rewrite lookup_take_lt by lia.
  by replace ((0 <=? i) && (i <? MAX_TEXTURES)) with true by in_range.
Qed.

Lemma texture_names_app l1 l2 :
  texture_names (l1 ++ l2) = texture_names l1 ++ texture_names l2.
Proof. induction l1 as [|[] l1 IH]; cbn; by rewrite ?IH. Qed.

(** ** [FindTextureSlot] is a first-match scan of the entries in use *)

Lemma FindTextureSlot_while_scan sc tag (n : nat) : ∀ index slot,
  registry_ok sc → 0 ≤ index → Z.of_nat n = m_loadedTextures sc - index →
  FindTextureSlot_while sc tag slot index false =
    Some match list_find (λ e, tex_tag e = tag)
                 (drop (Z.to_nat index) (registered_entries sc)) with
         | Some (i, _) => index + Z.of_nat i
         | None => slot
         end.
Proof.
  induction n as [|n IH]; intros index slot Hok H0 Hn;
    rewrite FindTextureSlot_while_step.
  - replace (index <? m_loadedTextures sc) with false
      by (symmetry; apply Z.ltb_ge; lia).
    rewrite drop_ge; [done|]. rewrite registered_entries_length by done. lia.
  - replace (index <? m_loadedTextures sc) with true
      by (symmetry; apply Z.ltb_lt; lia).
    cbn [andb negb]. rewrite texture_at_registered by (done || lia).
    destruct (registered_entries sc !! Z.to_nat index) as [e|] eqn:He.
    2:{ apply lookup_ge_None in He.
        rewrite registered_entries_length in He by done. lia. }
    rewrite (drop_S _ _ _ He). cbn [list_find].
    destruct (String.eqb_spec (tex_tag e) tag) as [Heq|Hne].
    + rewrite decide_True by done.
      rewrite FindTextureSlot_while_step, andb_false_r. cbn. f_equal. lia.
    + rewrite decide_False by done.
      rewrite IH by (done || lia).
      replace (S (Z.to_nat index)) with (Z.to_nat (index + 1)) by lia.
      destruct (list_find _ _) as [[i x]|]; cbn; [f_equal; lia | done].
Qed.

Lemma FindTextureSlot_first_slot sc tag :
  registry_ok sc →
  FindTextureSlot tag sc = Some (first_slot tag (registered_entries sc)).
Proof.
  intros Hok. unfold FindTextureSlot, first_slot.
  rewrite (FindTextureSlot_while_scan sc tag (Z.to_nat (m_loadedTextures sc)))
    by (done || destruct Hok; lia).
  cbn [Z.to_nat drop]. by destruct (list_find _ _) as [[i x]|].
Qed.

Lemma FindTextureID_while_scan sc tag (n : nat) : ∀ index id,
  registry_ok sc → 0 ≤ index → Z.of_nat n = m_loadedTextures sc - index →
  FindTextureID_while sc tag id index false =
    Some match list_find (λ e, tex_tag e = tag)
                 (drop (Z.to_nat index) (registered_entries sc)) with
         | Some (_, e) => to_int (tex_ID e)
         | None => id
         end.
Proof.
  induction n as [|n IH]; intros index id Hok H0 Hn;
    rewrite FindTextureID_while_step.
  - replace (index <? m_loadedTextures sc) with false
      by (symmetry; apply Z.ltb_ge; lia).
    rewrite drop_ge; [done|]. rewrite registered_entries_length by done. lia.
  - replace (index <? m_loadedTextures sc) with true
      by (symmetry; apply Z.ltb_lt; lia).
    cbn [andb negb]. rewrite texture_at_registered by (done || lia).
    destruct (registered_entries sc !! Z.to_nat index) as [e|] eqn:He.
    2:{ apply lookup_ge_None in He.
        rewrite registered_entries_length in He by done. lia. }
    rewrite (drop_S _ _ _ He). cbn [list_find].
    destruct (String.eqb_spec (tex_tag e) tag) as [Heq|Hne].
    + rewrite decide_True by done.
      by rewrite FindTextureID_while_step, andb_false_r.
    + rewrite decide_False by done.
      rewrite IH by (done || lia).
      replace (S (Z.to_nat index)) with (Z.to_nat (index + 1)) by lia.
      by destruct (list_find _ _) as [[i x]|].
Qed.

(** [FindTextureID] yields the GL name of the first entry with the tag,
    converted to [int]. *)
Lemma FindTextureID_first_match sc tag :
  registry_ok sc →
  FindTextureID tag sc =
    Some match list_find (λ e, tex_tag e = tag) (registered_entries sc) with
         | Some (_, e) => to_int (tex_ID e)
         | None => -1
         end.
Proof.
  intros Hok. unfold FindTextureID.
  by rewrite (FindTextureID_while_scan sc tag (Z.to_nat (m_loadedTextures sc)))
    by (done || destruct Hok; lia).
Qed.

(** ** [CreateGLTexture], case by case *)

Section CreateGLTexture_cases.

Variable stbi_load : string → option stbi_image.

Lemma CreateGLTexture_unreadable filename tag w :
  stbi_load filename = None →
  CreateGLTexture stbi_load filename tag w = Some (false, w).
Proof. intros H. unfold CreateGLTexture. by rewrite H. Qed.

Lemma CreateGLTexture_unsupported filename tag image w :
  stbi_load filename = Some image →
  img_channels image ≠ 3 → img_channels image ≠ 4 →
  CreateGLTexture stbi_load filename tag w =
    Some (false,
          mkWorld (gl_calls w
                     ++ create_prologue (fresh_texture_name (gl_calls w)))
                  (this w)).
Proof.
  intros H H3 H4. unfold CreateGLTexture. rewrite H.
  apply Z.eqb_neq in H3, H4. rewrite H3, H4.
  run_M. rewrite <- !app_assoc. reflexivity.
Qed.

Lemma CreateGLTexture_stored filename tag image w :
  stbi_load filename = Some image →
  img_channels image = 3 ∨ img_channels image = 4 →
  registry_ok (this w) → m_loadedTextures (this w) < MAX_TEXTURES →
  CreateGLTexture stbi_load filename tag w =
    Some (true,
          mkWorld (gl_calls w
                     ++ create_prologue (fresh_texture_name (gl_calls w))
                     ++ create_upload image)
            {| m_pShaderManager := m_pShaderManager (this w);
               m_loadedTextures := m_loadedTextures (this w) + 1;
               m_textureIDs :=
                 <[Z.to_nat (m_loadedTextures (this w)) :=
                     mkTEXTURE_INFO tag (fresh_texture_name (gl_calls w))]>
                   (m_textureIDs (this w));
               m_objectMaterials := m_objectMaterials (this w) |}).
Proof.
  intros H Hc [Hn Hl] Hlt. unfold CreateGLTexture. rewrite H.
  destruct (texture_at_Some (this w) (m_loadedTextures (this w)))
    as [e He]; [done | lia |].
  assert (Hlen : (Z.to_nat (m_loadedTextures (this w))
                  < length (m_textureIDs (this w)))%nat) by lia.
  unfold create_upload.
  destruct Hc as [Hc|Hc]; rewrite Hc; run_M;
    unfold store_texture_ID; run_M; rewrite He;
    run_M; unfold store_texture_tag, texture_at; run_M;
    (replace ((0 <=? m_loadedTextures (this w))
              && (m_loadedTextures (this w) <? MAX_TEXTURES)) with true
      by in_range);
    rewrite list_lookup_insert_eq by done; run_M;
    rewrite list_insert_insert_eq, <- !app_assoc; reflexivity.
Qed.

Lemma CreateGLTexture_overflow filename tag image w :
  stbi_load filename = Some image →
  img_channels image = 3 ∨ img_channels image = 4 →
  ¬ (0 ≤ m_loadedTextures (this w) < MAX_TEXTURES) →
  CreateGLTexture stbi_load filename tag w = None.
Proof.
  intros H Hc Hn. unfold CreateGLTexture. rewrite H.
  destruct Hc as [Hc|Hc]; rewrite Hc; run_M;
    unfold store_texture_ID; run_M;
    by rewrite texture_at_None.
Qed.

End CreateGLTexture_cases.

(** ** [BindGLTextures] and [DestroyGLTextures] *)

Lemma BindGLTextures_loop sc : registry_ok sc →
  ∀ (count : nat) (i : Z) (gl0 : GLContext),
  0 ≤ i → i + Z.of_nat count ≤ m_loadedTextures sc →
  for_range count i (λ i,
    gl (GlActiveTexture i);;
    sc ← get_this;
    match texture_at sc i with
    | Some e => gl (GlBindTexture GL_TEXTURE_2D (tex_ID e))
    | None => undefined
    end) (mkWorld gl0 sc) =
  Some ((), mkWorld (gl0 ++ bind_calls i (take count (drop (Z.to_nat i)
                                                (registered_entries sc)))) sc).
Proof.
  intros Hok. induction count as [|count IH]; intros i gl0 H0 Hi.
  - cbn [for_range]. run_M. rewrite take_0. cbn [bind_calls].
    by rewrite app_nil_r.
  - cbn [for_range]. run_M.
    rewrite texture_at_registered by (done || lia).
    destruct (registered_entries sc !! Z.to_nat i) as [e|] eqn:He.
    2:{ apply lookup_ge_None in He.
        rewrite registered_entries_length in He by done. lia. }
    rewrite IH by lia. rewrite (drop_S _ _ _ He). cbn [firstn bind_calls].
    replace (S (Z.to_nat i)) with (Z.to_nat (i + 1)) by lia.
    cbn [gl_calls]. by rewrite <- !app_assoc.
Qed.

Lemma BindGLTextures_calls w :
  registry_ok (this w) →
  BindGLTextures w =
    Some ((), mkWorld (gl_calls w ++ bind_calls 0 (registered_entries (this w)))
                      (this w)).
Proof.
  intros Hok. unfold BindGLTextures. run_M. destruct w as [gl0 sc].
  cbn [this gl_calls] in *.
  rewrite BindGLTextures_loop by (done || destruct Hok; lia).
  cbn [Z.to_nat drop]. rewrite <- (registered_entries_length sc) by done.
  by rewrite firstn_all.
Qed.

Lemma DestroyGLTextures_invariant w :
  registry_ok (this w) →
  ∃ w', DestroyGLTextures w = Some ((), w') ∧ same_registry w w' ∧
        length (texture_names (gl_calls w')) =
          (length (texture_names (gl_calls w))
           + Z.to_nat (m_loadedTextures (this w)))%nat.
Proof.
  intros [Hn Hl]. unfold DestroyGLTextures. run_M.
  set (n := m_loadedTextures (this w)) in *.
  destruct (for_range_invariant
    (λ j v, same_registry w v ∧
            length (texture_names (gl_calls v)) =
              (length (texture_names (gl_calls w)) + Z.to_nat j)%nat)
    (λ i, name ← glGenTextures1; store_texture_ID i name)
    (Z.to_nat n) 0 w) as (w' & Hw' & Hsame & Hnames).
  - split; [done | cbn; lia].
  - intros j v Hj [(Hs & Hc & Ht & Hm) Hnm]. run_M.
    unfold store_texture_ID. run_M.
    destruct (texture_at_Some (this v) j) as [e He].
    { rewrite <- (length_fmap tex_tag), Ht, length_fmap. done. }
    { unfold MAX_TEXTURES in *. lia. }
    unfold texture_at in *. cbn [this m_textureIDs]. rewrite He.
    eexists. split; [reflexivity|]. split.
    + split_and!; cbn [this m_pShaderManager m_loadedTextures m_textureIDs
                         m_objectMaterials]; try done.
      rewrite list_fmap_insert. cbn [tex_tag]. rewrite <- Ht.
      apply list_insert_id. rewrite list_lookup_fmap.
      destruct ((0 <=? j) && (j <? MAX_TEXTURES)); [|done].
      by rewrite He.
    + cbn [gl_calls]. rewrite texture_names_app, length_app, Hnm. cbn. lia.
  - exists w'. split; [done|]. split; [done|]. rewrite Hnames. lia.
Qed.

(** ** Texture units after [BindGLTextures] *)

Lemma replay_units_app l1 l2 active bound :
  replay_units (l1 ++ l2) active bound =
    replay_units l2 (replay_units l1 active bound).1
                    (replay_units l1 active bound).2.
Proof.
  revert active bound. induction l1 as [|c l1 IH]; intros active bound; [done|].
  destruct c as [| [] | | | |]; cbn; apply IH.
Qed.

Lemma replay_bind_calls entries : ∀ k active bound u,
  binding_of u (replay_units (bind_calls k entries) active bound).2 =
    match entries !! Z.to_nat (u - k) with
    | Some e => if k <=? u then Some (tex_ID e) else binding_of u bound
    | None => binding_of u bound
    end.
Proof.
  induction entries as [|e entries IH]; intros k active bound u; [done|].
  cbn [bind_calls replay_units]. rewrite IH. cbn [binding_of].
  destruct (Z.leb_spec k u) as [Hle|Hlt].
  - destruct (Z.eqb_spec k u) as [->|Hne].
    + replace (u - (u + 1)) with (-1) by lia.
      replace (u - u) with 0 by lia. cbn.
      destruct entries as [|e' entries]; cbn; [done|].
      by replace (u + 1 <=? u) with false by (symmetry; apply Z.leb_gt; lia).
    + replace (Z.to_nat (u - k)) with (S (Z.to_nat (u - (k + 1)))) by lia.
      cbn [lookup list_lookup].
      replace (k + 1 <=? u) with true by (symmetry; apply Z.leb_le; lia).
      done.
  - replace (k + 1 <=? u) with false by (symmetry; apply Z.leb_gt; lia).
    replace (k =? u) with false by (symmetry; apply Z.eqb_neq; lia).
    destruct (entries !! _); destruct (_ !! _); done.
Qed.

Lemma BindGLTextures_units w (i : nat) e :
  registry_ok (this w) →
  registered_entries (this w) !! i = Some e →
  ∃ w', BindGLTextures w = Some ((), w') ∧ this w' = this w ∧
        unit_binding (gl_calls w') (Z.of_nat i) = Some (tex_ID e).
Proof.
  intros Hok He. eexists. split; [by apply BindGLTextures_calls|].
  split; [done|]. cbn [gl_calls]. unfold unit_binding.
  rewrite replay_units_app, replay_bind_calls.
  replace (Z.to_nat (Z.of_nat i - 0)) with i by lia. rewrite He.
  by replace (0 <=? Z.of_nat i) with true by (symmetry; apply Z.leb_le; lia).
Qed.

(** ** Slots of registered and of unknown tags *)

Lemma first_slot_tags tag entries :
  first_slot tag entries =
    match list_find (λ t, t = tag) (tex_tag <$> entries) with
    | Some (i, _) => Z.of_nat i
    | None => -1
    end.
Proof.
  unfold first_slot. rewrite list_find_fmap.
  by destruct (list_find _ entries) as [[i e]|].
Qed.

Lemma FindTextureSlot_registered sc tag (i : nat) :
  registry_ok sc →
  registered_tags sc !! i = Some tag →
  (∀ j, (j < i)%nat → registered_tags sc !! j ≠ Some tag) →
  FindTextureSlot tag sc = Some (Z.of_nat i).
Proof.
  intros Hok Hi Hfirst. rewrite FindTextureSlot_first_slot by done.
  rewrite first_slot_tags. fold (registered_tags sc).
  replace (list_find (λ t, t = tag) (registered_tags sc)) with (Some (i, tag));
    [done|].
  symmetry. apply list_find_Some. split_and!; [done..|].
  intros j y Hj Hlt ->. by apply (Hfirst j).
Qed.

Lemma FindTextureSlot_unregistered sc tag :
  registry_ok sc → tag ∉ registered_tags sc →
  FindTextureSlot tag sc = Some (-1).
Proof.
  intros Hok Hnot. rewrite FindTextureSlot_first_slot by done.
  rewrite first_slot_tags. fold (registered_tags sc).
  replace (list_find (λ t, t = tag) (registered_tags sc)) with
    (@None (nat * string)); [done|].
  symmetry. apply list_find_None, Forall_forall. by intros t Ht ->.
Qed.

Lemma FindTextureSlot_range sc tag slot :
  registry_ok sc → FindTextureSlot tag sc = Some slot →
  slot = -1 ∨ 0 ≤ slot < m_loadedTextures sc ∧
     registered_tags sc !! Z.to_nat slot = Some tag.
Proof.
  intros Hok. rewrite FindTextureSlot_first_slot by done.
  rewrite first_slot_tags. fold (registered_tags sc).
  destruct (list_find _ _) as [[i t]|] eqn:Hfind; intros [= <-]; [right|by left].
  apply list_find_Some in Hfind as (Hi & -> & _).
  pose proof (lookup_lt_Some _ _ _ Hi) as Hlt.
  unfold registered_tags in Hlt.
  rewrite length_fmap, registered_entries_length in Hlt by done.
  rewrite Nat2Z.id. split; [lia | done].
Qed.

Lemma registry_ok_new pShaderManager : registry_ok (SceneManager_new pShaderManager).
Proof. split; cbn; unfold MAX_TEXTURES; [lia | done]. Qed.

Lemma registered_tags_new pShaderManager :
  registered_tags (SceneManager_new pShaderManager) = [].
Proof. reflexivity. Qed.

(** ** Histories keep the registry well formed *)

Section History_facts.

Variable stbi_load : string → option stbi_image.

Lemma loadable_spec filename :
loadable stbi_load filename = true ↔
∃ image, stbi_load filename = Some image ∧
         (img_channels image = 3 ∨ img_channels image = 4).
Proof.
unfold loadable. destruct (stbi_load filename) as [image|].
- rewrite orb_true_iff, !Z.eqb_eq. split; [eauto | by intros (? & [= <-] & ?)].
- split; [done | by intros (? & ? & ?)].
Qed.

Lemma perform_registry op w w' :
registry_ok (this w) →
perform stbi_load op w = Some ((), w') →
registry_ok (this w') ∧
registered_tags (this w') =
  registered_tags (this w) ++ registrations stbi_load [op] ∧
m_pShaderManager (this w') = m_pShaderManager (this w) ∧
m_objectMaterials (this w') = m_objectMaterials (this w).
Proof.
intros Hok. destruct op as [filename tag| |]; cbn [perform registrations].
- unfold mbind, M_bind at 1. unfold loadable.
  destruct (stbi_load filename) as [image|] eqn:Hload.
  2:{ rewrite CreateGLTexture_unreadable by done. run_M. intros [= <-].
      by rewrite app_nil_r. }
  destruct (decide (img_channels image = 3 ∨ img_channels image = 4))
    as [Hc|Hc].
  + destruct (decide (m_loadedTextures (this w) < MAX_TEXTURES)) as [Hlt|Hge].
    2:{ rewrite (CreateGLTexture_overflow _ _ _ image); [done..|]. lia. }
    rewrite (CreateGLTexture_stored _ _ _ image) by done. run_M.
    intros [= <-]. cbn [this m_loadedTextures m_textureIDs m_pShaderManager
                         m_objectMaterials].
    destruct Hok as [Hn Hl].
    replace ((img_channels image =? 3) || (img_channels image =? 4)) with true
      by (symmetry; apply orb_true_iff; rewrite !Z.eqb_eq; done).
    split_and!; try done.
    * split; cbn [m_loadedTextures m_textureIDs];
        [lia | by rewrite length_insert].
    * unfold registered_tags, registered_entries.
      cbn [m_loadedTextures m_textureIDs].
      replace (Z.to_nat (m_loadedTextures (this w) + 1))
        with (S (Z.to_nat (m_loadedTextures (this w)))) by lia.
      erewrite take_S_r by (apply list_lookup_insert_eq; lia).
      rewrite take_insert_ge by lia. by rewrite fmap_app.
  + rewrite (CreateGLTexture_unsupported _ _ _ image) by tauto. run_M.
    intros [= <-]. cbn [this].
    replace ((img_channels image =? 3) || (img_channels image =? 4)) with false.
    { by rewrite app_nil_r. }
    symmetry. apply orb_false_iff. rewrite !Z.eqb_neq. tauto.
- rewrite BindGLTextures_calls by done. intros [= <-]. cbn [this].
  by rewrite app_nil_r.
- destruct (DestroyGLTextures_invariant w Hok) as (v & -> & (Hs & Hc & Ht & Hm) & _).
  intros [= <-]. rewrite app_nil_r. destruct Hok as [Hn Hl].
  split_and!; try done.
  + split; [by rewrite Hc|].
    by rewrite <- (length_fmap tex_tag), Ht, length_fmap.
  + unfold registered_tags, registered_entries.
    by rewrite !fmap_take, Ht, Hc.
Qed.

Lemma registrations_app ops1 ops2 :
registrations stbi_load (ops1 ++ ops2) =
  registrations stbi_load ops1 ++ registrations stbi_load ops2.
Proof.
induction ops1 as [|[filename tag| |] ops1 IH]; cbn; [done| |done..].
destruct (loadable stbi_load filename); cbn; by rewrite IH.
Qed.

Lemma run_registry ops : ∀ w w',
registry_ok (this w) →
run stbi_load ops w = Some ((), w') →
registry_ok (this w') ∧
registered_tags (this w') =
  registered_tags (this w) ++ registrations stbi_load ops ∧
m_pShaderManager (this w') = m_pShaderManager (this w) ∧
m_objectMaterials (this w') = m_objectMaterials (this w).
Proof.
induction ops as [|op ops IH]; intros w w' Hok.
- run_M. intros [= <-]. by rewrite app_nil_r.
- cbn [run]. unfold mbind, M_bind at 1.
  destruct (perform stbi_load op w) as [[[] v]|] eqn:Hop; [|done].
  intros Hrun.
  destruct (perform_registry op w v Hok Hop) as (Hokv & Htags & Hs & Hm).
  destruct (IH v w' Hokv Hrun) as (Hokw & Htags' & Hs' & Hm').
  split_and!; [done | | congruence..].
  rewrite Htags', Htags, <- app_assoc.
  by rewrite <- registrations_app.
Qed.

Lemma run_app ops1 ops2 w :
run stbi_load (ops1 ++ ops2) w =
  match run stbi_load ops1 w with
  | Some (_, v) => run stbi_load ops2 v
  | None => None
  end.
Proof.
revert w. induction ops1 as [|op ops1 IH]; intros w; [done|].
cbn [app run]. unfold mbind, M_bind.
destruct (perform stbi_load op w) as [[[] v]|]; [apply IH | done].
Qed.

(** Within the capacity of the array, the slots stay below it. *)
Lemma FindTextureSlot_below_capacity pShaderManager gl0 ops w tag slot :
  run stbi_load ops (mkWorld gl0 (SceneManager_new pShaderManager))
    = Some ((), w) →
  FindTextureSlot tag (this w) = Some slot →
  slot = -1 ∨ 0 ≤ slot < MAX_TEXTURES.
Proof.
  intros Hrun Hslot.
  apply run_registry in Hrun as (Hok & _); [|apply registry_ok_new].
  destruct (FindTextureSlot_range _ _ _ Hok Hslot) as [->|[Hin _]];
    [by left | right].
  destruct Hok. lia.
Qed.

End History_facts.

(** ** Uniforms *)

Lemma uniform_app name sm1 sm2 :
  uniform name (sm1 ++ sm2) =
    match uniform name sm2 with
    | Some v => Some v
    | None => uniform name sm1
    end.
Proof.
  induction sm1 as [|[n v] sm1 IH]; cbn.
  - by destruct (uniform name sm2).
  - rewrite IH. by destruct (uniform name sm2).
Qed.

Lemma SetShaderTexture_pushes w sm tag :
  registry_ok (this w) →
  m_pShaderManager (this w) = Some sm →
  SetShaderTexture tag w =
    Some ((), mkWorld (gl_calls w)
      (with_shader
         (Some (sm ++ [(g_UseTextureName, UInt 1);
                       (g_TextureValueName,
                        USampler2D (first_slot tag (registered_entries (this w))))]))
         (this w))).
Proof.
  intros Hok Hsm. unfold SetShaderTexture. run_M. rewrite Hsm.
  unfold shader. run_M. rewrite Hsm. run_M.
  match goal with |- context [FindTextureSlot tag ?sc] =>
    assert (Hsc : registry_ok sc) by exact Hok;
    rewrite (FindTextureSlot_first_slot sc tag Hsc) end.
  unfold registered_entries. cbn [m_loadedTextures m_textureIDs].
  unfold setSampler2DValue, setIntValue, push_uniform, with_shader.
  cbn [this gl_calls m_pShaderManager m_loadedTextures m_textureIDs
       m_objectMaterials].
  by rewrite <- app_assoc.
Qed.

(** ** Claims on the texture registry *)

(** C5.  A tag registered by a successful [CreateGLTexture] resolves, once
    [BindGLTextures] has run, to its position in the order of the
    successful registrations.  Starting from a new scene manager: if [tag]
    is the [i]-th successful registration of the history (counting from 0)
    and was not registered before, then [FindTextureSlot tag] returns [i],
    [i] lies in [0, N) where [N] is the number of successful registrations
    (and the value of [m_loadedTextures]), and texture unit [i] holds the
    texture of that entry. *)
Theorem FindTextureSlot_registration_order
    (stbi_load : string → option stbi_image) pShaderManager gl0 ops w
    (i : nat) tag :
  run stbi_load (ops ++ [OpBindGLTextures])
      (mkWorld gl0 (SceneManager_new pShaderManager)) = Some ((), w) →
  registrations stbi_load ops !! i = Some tag →
  (∀ j, (j < i)%nat → registrations stbi_load ops !! j ≠ Some tag) →
  let N := Z.of_nat (length (registrations stbi_load ops)) in
  FindTextureSlot tag (this w) = Some (Z.of_nat i) ∧
  0 ≤ Z.of_nat i < N ∧
  m_loadedTextures (this w) = N ∧
  ∃ e, m_textureIDs (this w) !! i = Some e ∧ tex_tag e = tag ∧
       unit_binding (gl_calls w) (Z.of_nat i) = Some (tex_ID e).
Proof.
  intros Hrun Hi Hfirst N. rewrite run_app in Hrun.
  destruct (run stbi_load ops _) as [[[] v]|] eqn:Hv; [|done].
  apply run_registry in Hv as (Hok & Htags & _); [|apply registry_ok_new].
  cbn [this] in Htags. rewrite registered_tags_new in Htags. cbn [app] in Htags.
  rewrite <- Htags in Hi.
  assert (He : ∃ e, registered_entries (this v) !! i = Some e ∧ tex_tag e = tag).
  { unfold registered_tags in Hi. rewrite list_lookup_fmap in Hi.
    destruct (registered_entries (this v) !! i) as [e|]; [|done].
    exists e. split; [done|]. by injection Hi. }
  destruct He as (e & He & Hetag).
  destruct (BindGLTextures_units v i e Hok He) as (w' & Hbind & Hthis & Hunit).
  cbn [run perform] in Hrun. unfold mbind, M_bind, mret, M_ret in Hrun.
  rewrite Hbind in Hrun. injection Hrun as <-. rewrite Hthis.
  assert (Hcount : m_loadedTextures (this v) = N).
  { unfold N. rewrite <- Htags. unfold registered_tags.
    rewrite length_fmap, registered_entries_length by done.
    destruct Hok. lia. }
  split_and!.
  - apply FindTextureSlot_registered; [done..|].
    intros j Hj. rewrite Htags. by apply Hfirst.
  - lia.
  - apply lookup_lt_Some in He.
    rewrite registered_entries_length in He by done. lia.
  - done.
  - exists e. split_and!; [|done..].
    unfold registered_entries in He. by apply lookup_take_Some in He as [He _].
Qed.

(** Textures "A" (3 channels) and "B" (4 channels) are registered and
    bound: they resolve to slots 0 and 1. *)
Lemma FindTextureSlot_registration_order_witness :
  let ops := [OpCreateGLTexture "a.jpg" "A"; OpCreateGLTexture "b.png" "B"] in
  let w := world_after (ops ++ [OpBindGLTextures]) in
  run sample_files (ops ++ [OpBindGLTextures]) fresh_world = Some ((), w) ∧
  (FindTextureSlot "A" (this w) = Some 0 ∧ FindTextureSlot "B" (this w) = Some 1) ∧
  m_loadedTextures (this w) = 2.
Proof.
  intros ops w.
  assert (Hrun : run sample_files (ops ++ [OpBindGLTextures]) fresh_world
                 = Some ((), w)) by (vm_compute; reflexivity).
  split; [exact Hrun|].
  split; [split|].
  - apply (FindTextureSlot_registration_order sample_files (Some []) [] ops w
             0 "A" Hrun); [reflexivity | intros j Hj; lia].
  - apply (FindTextureSlot_registration_order sample_files (Some []) [] ops w
             1 "B" Hrun); [reflexivity|].
    intros [|j] Hj; [vm_compute; discriminate | lia].
  - apply (FindTextureSlot_registration_order sample_files (Some []) [] ops w
             1 "B" Hrun); [reflexivity|].
    intros [|j] Hj; [vm_compute; discriminate | lia].
Defined.

(** C6.  A tag that no successful [CreateGLTexture] of the history
    registered makes [FindTextureSlot] return the sentinel [-1], with a
    defined outcome; [SetShaderTexture] with that tag, whatever the shader
    manager has received so far, pushes [-1] as the value of the sampler
    uniform "objectTexture". *)
Theorem FindTextureSlot_unknown_tag
    (stbi_load : string → option stbi_image) pShaderManager gl0 ops w sm tag :
  run stbi_load ops (mkWorld gl0 (SceneManager_new pShaderManager))
    = Some ((), w) →
  tag ∉ registrations stbi_load ops →
  let sm' := sm ++ [(g_UseTextureName, UInt 1);
                    (g_TextureValueName, USampler2D (-1))] in
  FindTextureSlot tag (this w) = Some (-1) ∧
  SetShaderTexture tag (mkWorld (gl_calls w) (with_shader (Some sm) (this w)))
    = Some ((), mkWorld (gl_calls w) (with_shader (Some sm') (this w))) ∧
  uniform g_TextureValueName sm' = Some (USampler2D (-1)).
Proof.
  intros Hrun Hnot sm'.
  apply run_registry in Hrun as (Hok & Htags & _); [|apply registry_ok_new].
  cbn [this] in Htags. rewrite registered_tags_new in Htags.
  cbn [app] in Htags.
  assert (Hmiss : FindTextureSlot tag (this w) = Some (-1)).
  { apply FindTextureSlot_unregistered; by rewrite ?Htags. }
  split_and!; [done | |].
  - rewrite (SetShaderTexture_pushes _ sm) by done.
    cbn [this gl_calls].
    rewrite FindTextureSlot_first_slot in Hmiss by done.
    injection Hmiss as Hmiss.
    unfold registered_entries in *. cbn [with_shader m_loadedTextures m_textureIDs].
    rewrite Hmiss. reflexivity.
  - unfold sm'. rewrite uniform_app. reflexivity.
Qed.

(** "G" names a single-channel image, so its registration fails and the
    tag resolves to [-1]. *)
Lemma FindTextureSlot_unknown_tag_witness :
  let ops := [OpCreateGLTexture "a.jpg" "A"; OpCreateGLTexture "grey.png" "G";
              OpBindGLTextures] in
  let w := world_after ops in
  let sm' := [(g_UseTextureName, UInt 1);
              (g_TextureValueName, USampler2D (-1))] in
  run sample_files ops fresh_world = Some ((), w) ∧
  ("G" ∉ registrations sample_files ops) ∧
  FindTextureSlot "G" (this w) = Some (-1) ∧
  SetShaderTexture "G" (mkWorld (gl_calls w) (with_shader (Some []) (this w)))
    = Some ((), mkWorld (gl_calls w) (with_shader (Some sm') (this w))) ∧
  uniform g_TextureValueName sm' = Some (USampler2D (-1)).
Proof.
  intros ops w sm'.
  assert (Hrun : run sample_files ops fresh_world = Some ((), w))
    by (vm_compute; reflexivity).
  assert (Hnot : "G" ∉ registrations sample_files ops)
    by (apply (bool_decide_unpack _); vm_compute; exact I).
  split; [exact Hrun|]. split; [exact Hnot|].
  exact (FindTextureSlot_unknown_tag sample_files (Some []) [] ops w []
           "G" Hrun Hnot).
Defined.

(** C10.  For every tag, resolved or not, [SetShaderTexture] first sets
    "bUseTexture" to true (the int 1) and then pushes the result of the
    lookup as the sampler: the two pushes arrive in that order, the flag
    reads 1 afterwards, and for a tag that is not registered the sampler
    is [-1] while the flag stays set. *)
Theorem SetShaderTexture_enables_sampling w sm tag :
  registry_ok (this w) →
  m_pShaderManager (this w) = Some sm →
  ∃ slot,
    let sm' := sm ++ [(g_UseTextureName, UInt 1);
                      (g_TextureValueName, USampler2D slot)] in
    FindTextureSlot tag (this w) = Some slot ∧
    SetShaderTexture tag w
      = Some ((), mkWorld (gl_calls w) (with_shader (Some sm') (this w))) ∧
    uniform g_UseTextureName sm' = Some (UInt 1) ∧
    uniform g_TextureValueName sm' = Some (USampler2D slot) ∧
    (tag ∉ registered_tags (this w) → slot = -1).
Proof.
  intros Hok Hsm. exists (first_slot tag (registered_entries (this w))).
  intros sm'. split_and!.
  - by apply FindTextureSlot_first_slot.
  - by apply SetShaderTexture_pushes.
  - unfold sm'. rewrite uniform_app. reflexivity.
  - unfold sm'. rewrite uniform_app. reflexivity.
  - intros Hnot. apply (FindTextureSlot_unregistered _ _ Hok) in Hnot.
    rewrite FindTextureSlot_first_slot in Hnot by done. congruence.
Qed.

(** With one texture registered, [SetShaderTexture "missing"] leaves the
    flag set and the sampler at [-1]. *)
Lemma SetShaderTexture_enables_sampling_witness :
  let w := world_after [OpCreateGLTexture "a.jpg" "A"; OpBindGLTextures] in
  registry_ok (this w) ∧ m_pShaderManager (this w) = Some [] ∧
  SetShaderTexture "missing" w
    = Some ((), mkWorld (gl_calls w)
                  (with_shader (Some [(g_UseTextureName, UInt 1);
                                      (g_TextureValueName, USampler2D (-1))])
                     (this w))).
Proof.
  intros w.
  assert (Hok : registry_ok (this w)) by (split; vm_compute; [intuition discriminate | reflexivity]).
  assert (Hsm : m_pShaderManager (this w) = Some []) by reflexivity.
  split; [exact Hok|]. split; [exact Hsm|].
  destruct (SetShaderTexture_enables_sampling w [] "missing" Hok Hsm)
    as (slot & _ & Hset & _ & _ & Hmiss).
  rewrite Hset, Hmiss; [reflexivity|].
  apply (bool_decide_unpack _). vm_compute. exact I.
Defined.

(** C7.  For a decoded image whose channel count is neither 3 nor 4,
    [CreateGLTexture] returns [false] and leaves the scene manager, hence
    the entry count of the texture registry, as it was.  For a 3-channel or
    4-channel image, with room left in the registry, it returns [true],
    the count goes up by one and the tag is appended to the registered
    tags. *)
Theorem CreateGLTexture_channel_count
    (stbi_load : string → option stbi_image) filename tag image w :
  stbi_load filename = Some image →
  (img_channels image ≠ 3 → img_channels image ≠ 4 →
     ∃ w', CreateGLTexture stbi_load filename tag w = Some (false, w') ∧
           this w' = this w) ∧
  (img_channels image = 3 ∨ img_channels image = 4 →
   registry_ok (this w) → m_loadedTextures (this w) < MAX_TEXTURES →
     ∃ w', CreateGLTexture stbi_load filename tag w = Some (true, w') ∧
           m_loadedTextures (this w') = m_loadedTextures (this w) + 1 ∧
           registered_tags (this w') = registered_tags (this w) ++ [tag]).
Proof.
  intros Hload. split.
  - intros H3 H4. eexists.
    split; [by apply (CreateGLTexture_unsupported _ _ _ image)|done].
  - intros Hc Hok Hlt. eexists.
    split; [by apply (CreateGLTexture_stored _ _ _ image)|].
    cbn [this m_loadedTextures]. split; [done|].
    destruct Hok as [Hn Hl].
    unfold registered_tags, registered_entries.
    cbn [m_loadedTextures m_textureIDs].
    replace (Z.to_nat (m_loadedTextures (this w) + 1))
      with (S (Z.to_nat (m_loadedTextures (this w)))) by lia.
    erewrite take_S_r by (apply list_lookup_insert_eq; lia).
    rewrite take_insert_ge by lia. by rewrite fmap_app.
Qed.

(** In a new scene manager a single-channel image is refused, an RGB and
    an RGBA image are registered. *)
Lemma CreateGLTexture_channel_count_witness :
  sample_files "grey.png" = Some (mkimage 2 2 1 []) ∧
  sample_files "a.jpg" = Some (mkimage 2 2 3 []) ∧
  sample_files "b.png" = Some (mkimage 2 2 4 []) ∧
  (∃ w', CreateGLTexture sample_files "grey.png" "G" fresh_world
           = Some (false, w') ∧ this w' = this fresh_world) ∧
  (∃ w', CreateGLTexture sample_files "a.jpg" "A" fresh_world
           = Some (true, w') ∧ m_loadedTextures (this w') = 1) ∧
  (∃ w', CreateGLTexture sample_files "b.png" "B" fresh_world
           = Some (true, w') ∧ m_loadedTextures (this w') = 1).
Proof.
  assert (Hok : registry_ok (this fresh_world)) by apply registry_ok_new.
  split_and!; try reflexivity.
  - apply (CreateGLTexture_channel_count sample_files "grey.png" "G"
             (mkimage 2 2 1 []) fresh_world eq_refl); discriminate.
  - destruct (CreateGLTexture_channel_count sample_files "a.jpg" "A"
                (mkimage 2 2 3 []) fresh_world eq_refl) as [_ Hin].
    destruct Hin as (w' & Hw' & Hcount & _);
      [left; reflexivity | exact Hok | reflexivity |].
    exists w'. split; [exact Hw' | exact Hcount].
  - destruct (CreateGLTexture_channel_count sample_files "b.png" "B"
                (mkimage 2 2 4 []) fresh_world eq_refl) as [_ Hin].
    destruct Hin as (w' & Hw' & Hcount & _);
      [right; reflexivity | exact Hok | reflexivity |].
    exists w'. split; [exact Hw' | exact Hcount].
Defined.

(** C9 (the code at the failing input).  Sixteen successful registrations
    fill the array and leave [m_loadedTextures = 16]; a seventeenth one
    stores into [m_textureIDs[16]], outside the array: [CreateGLTexture]
    does not check the counter against the capacity, and the history has no
    defined outcome. *)
Theorem CreateGLTexture_seventeenth_texture :
  let load := OpCreateGLTexture "a.jpg" "A" in
  (∃ w, run sample_files (replicate 16 load) fresh_world = Some ((), w) ∧
        m_loadedTextures (this w) = 16 ∧
        CreateGLTexture sample_files "a.jpg" "A" w = None) ∧
  run sample_files (replicate 17 load ++ [OpBindGLTextures]) fresh_world = None.
Proof.
  intros load. split.
  - exists (world_after (replicate 16 load)).
    split_and!; vm_compute; reflexivity.
  - vm_compute. reflexivity.
Qed.

(** C3 (counterexample).  One texture is registered and bound; after
    [DestroyGLTextures] the entry count is still 1 and the GL context holds
    one more texture name than before, so the registry is not empty and
    nothing was freed. *)
Lemma DestroyGLTextures_not_emptied :
  let w := world_after [OpCreateGLTexture "a.jpg" "A"; OpBindGLTextures] in
  let w' := world_after [OpCreateGLTexture "a.jpg" "A"; OpBindGLTextures;
                         OpDestroyGLTextures] in
  DestroyGLTextures w = Some ((), w') ∧
  texture_names (gl_calls w) = [1] ∧
  texture_names (gl_calls w') = [1; 2] ∧
  m_loadedTextures (this w') = 1 ∧
  ¬ (m_loadedTextures (this w') = 0 ∧ texture_names (gl_calls w') = []).
Proof.
  intros w w'. split_and!; try (vm_compute; reflexivity).
  intros [Hcount _]. vm_compute in Hcount. discriminate.
Qed.

(** C3 (amended).  [DestroyGLTextures] does not empty the texture registry:
    the entry count and the tags are what they were, and every tag
    resolves to the slot it had before. *)
Theorem DestroyGLTextures_keeps_registry w :
  registry_ok (this w) →
  ∃ w', DestroyGLTextures w = Some ((), w') ∧
        m_loadedTextures (this w') = m_loadedTextures (this w) ∧
        registered_tags (this w') = registered_tags (this w) ∧
        ∀ tag, FindTextureSlot tag (this w') = FindTextureSlot tag (this w).
Proof.
  intros Hok.
  destruct (DestroyGLTextures_invariant w Hok)
    as (w' & Hw' & (Hs & Hc & Ht & Hm) & _).
  assert (Hok' : registry_ok (this w')).
  { destruct Hok as [Hn Hl]. split; [by rewrite Hc|].
    by rewrite <- (length_fmap tex_tag), Ht, length_fmap. }
  assert (Htags : registered_tags (this w') = registered_tags (this w)).
  { unfold registered_tags, registered_entries. by rewrite !fmap_take, Ht, Hc. }
  exists w'. split_and!; try done.
  intros tag. rewrite !FindTextureSlot_first_slot, !first_slot_tags by done.
  fold (registered_tags (this w')) (registered_tags (this w)).
  by rewrite Htags.
Qed.

(** Two textures are registered; after [DestroyGLTextures] there are still
    two, under the same tags. *)
Lemma DestroyGLTextures_keeps_registry_witness :
  let w := world_after [OpCreateGLTexture "a.jpg" "A";
                        OpCreateGLTexture "b.png" "B"; OpBindGLTextures] in
  registry_ok (this w) ∧
  ∃ w', DestroyGLTextures w = Some ((), w') ∧
        m_loadedTextures (this w') = 2 ∧
        registered_tags (this w') = ["A"; "B"].
Proof.
  intros w.
  assert (Hok : registry_ok (this w))
    by (split; vm_compute; [intuition discriminate | reflexivity]).
  split; [exact Hok|].
  destruct (DestroyGLTextures_keeps_registry w Hok)
    as (w' & Hw' & Hcount & Htags & _).
  exists w'. split; [exact Hw'|]. split; [exact Hcount | exact Htags].
Defined.

(** ** Materials *)

Lemma material_at_lookup mats (i : nat) :
  material_at mats (Z.of_nat i) = mats !! i.
Proof.
  unfold material_at. 
  replace (0 <=? Z.of_nat i) with true by (symmetry; apply Z.leb_le; lia).
  by rewrite Nat2Z.id.
Qed.

Lemma FindMaterial_while_scan mats t (n : nat) : ∀ (index : nat) material,
  (n + index = length mats)%nat →
  FindMaterial_while mats t material (Z.of_nat index) false =
    Some match list_find (λ e, mat_tag e = t) (drop index mats) with
         | Some (i, e) =>
             (Z.of_nat (index + i), true, copy_material e material)
         | None => (vector_size mats, false, material)
         end.
Proof.
  induction n as [|n IH]; intros index material Hn;
    rewrite FindMaterial_while_step; unfold vector_size.
  - replace (Z.of_nat index <? Z.of_nat (length mats)) with false
      by (symmetry; apply Z.ltb_ge; lia).
    rewrite drop_ge by lia. cbn. do 3 f_equal. lia.
  - replace (Z.of_nat index <? Z.of_nat (length mats)) with true
      by (symmetry; apply Z.ltb_lt; lia).
    cbn [andb negb]. rewrite material_at_lookup.
    destruct (mats !! index) as [e|] eqn:He.
    2:{ apply lookup_ge_None in He. lia. }
    rewrite (drop_S _ _ _ He). cbn [list_find].
    destruct (String.eqb_spec (mat_tag e) t) as [Heq|Hne].
    + rewrite decide_True by done.
      rewrite FindMaterial_while_step, andb_false_r. cbn. do 3 f_equal. lia.
    + rewrite decide_False by done.
      replace (Z.of_nat index + 1) with (Z.of_nat (S index)) by lia.
      rewrite IH by lia.
      destruct (list_find _ _) as [[i x]|]; cbn; [do 3 f_equal; lia | done].
Qed.

(** What [FindMaterial] leaves in its out-parameter. *)
Lemma FindMaterial_first_match t material sc :
  FindMaterial t material sc =
    Some (match m_objectMaterials sc with [] => false | _ => true end,
          match list_find (λ e, mat_tag e = t) (m_objectMaterials sc) with
          | Some (_, e) => copy_material e material
          | None => material
          end).
Proof.
  unfold FindMaterial, vector_size.
  destruct (m_objectMaterials sc) as [|m mats] eqn:Hm; [done|].
  replace (Z.of_nat (length (m :: mats)) =? 0) with false
    by (symmetry; apply Z.eqb_neq; cbn [length]; lia).
  rewrite (FindMaterial_while_scan (m :: mats) t (length (m :: mats)) 0%nat)
    by lia.
  cbn [drop]. by destruct (list_find _ _) as [[i e]|].
Qed.

(** C1 (the code on undefined tags).  On a non-empty material registry
    [FindMaterial] returns [true] for a tag that was never defined, and
    leaves the out-parameter untouched: its last statement is
    [return(true)], not [return(bFound)]. *)
Theorem FindMaterial_undefined_tag_reports_found t material sc :
  m_objectMaterials sc ≠ [] →
  t ∉ mat_tag <$> m_objectMaterials sc →
  FindMaterial t material sc = Some (true, material).
Proof.
  intros Hne Hnot. rewrite FindMaterial_first_match.
  destruct (m_objectMaterials sc) as [|m mats] eqn:Hm; [done|].
  replace (list_find (λ e, mat_tag e = t) (m :: mats))
    with (@None (nat * OBJECT_MATERIAL)); [done|].
  symmetry. apply list_find_None, Forall_forall. intros e He Heq.
  apply Hnot, list_elem_of_fmap. eauto.
Qed.

(** After [DefineObjectMaterials], the undefined tag "glass" is reported as
    found. *)
Lemma FindMaterial_undefined_tag_reports_found_witness :
  m_objectMaterials (this scene_with_materials) ≠ [] ∧
  ("glass" ∉ mat_tag <$> m_objectMaterials (this scene_with_materials)) ∧
  FindMaterial "glass" stale_material (this scene_with_materials)
    = Some (true, stale_material).
Proof.
  assert (Hne : m_objectMaterials (this scene_with_materials) ≠ [])
    by (vm_compute; discriminate).
  assert (Hnot : "glass" ∉ mat_tag <$> m_objectMaterials (this scene_with_materials))
    by (apply (bool_decide_unpack _); vm_compute; exact I).
  split; [exact Hne|]. split; [exact Hnot|].
  exact (FindMaterial_undefined_tag_reports_found "glass" stale_material
           (this scene_with_materials) Hne Hnot).
Defined.

(** On a non-empty registry [SetShaderMaterial] always pushes: the fields
    of the first match, or else what the local held. *)
Lemma SetShaderMaterial_found material t w sm :
  m_objectMaterials (this w) ≠ [] →
  m_pShaderManager (this w) = Some sm →
  SetShaderMaterial material t w =
    Some ((), mkWorld (gl_calls w)
      (with_shader
         (Some (sm ++ material_uniforms
                        match list_find (λ e, mat_tag e = t)
                                (m_objectMaterials (this w)) with
                        | Some (_, e) => copy_material e material
                        | None => material
                        end))
         (this w))).
Proof.
  intros Hne Hsm. unfold SetShaderMaterial. run_M.
  replace (vector_size (m_objectMaterials (this w)) >? 0) with true.
  2:{ symmetry. apply Z.gtb_lt. unfold vector_size.
      destruct (m_objectMaterials (this w)); [done | cbn [length]; lia]. }
  rewrite FindMaterial_first_match.
  destruct (m_objectMaterials (this w)) as [|m mats] eqn:Hm; [done|].
  unfold shader. run_M. rewrite Hsm. run_M.
  unfold with_shader, material_uniforms, setVec3Value, setFloatValue, push_uniform.
  rewrite Hm, <- !app_assoc. reflexivity.
Qed.

(** C2 (the code on undefined tags).  With a non-empty material registry
    and a tag that is not in it, [SetShaderMaterial] pushes all five
    material uniforms, with the content of its uninitialised local
    [material]: [FindMaterial] has reported success. *)
Theorem SetShaderMaterial_undefined_tag_writes material t w sm :
  m_objectMaterials (this w) ≠ [] →
  t ∉ mat_tag <$> m_objectMaterials (this w) →
  m_pShaderManager (this w) = Some sm →
  SetShaderMaterial material t w =
    Some ((), mkWorld (gl_calls w)
                (with_shader (Some (sm ++ material_uniforms material)) (this w))).
Proof.
  intros Hne Hnot Hsm. rewrite (SetShaderMaterial_found _ _ _ sm) by done.
  replace (list_find (λ e, mat_tag e = t) (m_objectMaterials (this w)))
    with (@None (nat * OBJECT_MATERIAL)); [done|].
  symmetry. apply list_find_None, Forall_forall. intros e He Heq.
  apply Hnot, list_elem_of_fmap. eauto.
Qed.

(** After [DefineObjectMaterials], [SetShaderMaterial "glass"] pushes the
    stale content of the local. *)
Lemma SetShaderMaterial_undefined_tag_writes_witness :
  let w := scene_with_materials in
  m_objectMaterials (this w) ≠ [] ∧
  ("glass" ∉ mat_tag <$> m_objectMaterials (this w)) ∧
  m_pShaderManager (this w) = Some [] ∧
  SetShaderMaterial stale_material "glass" w =
    Some ((), mkWorld (gl_calls w)
                (with_shader (Some (material_uniforms stale_material)) (this w))) ∧
  uniform "material.shininess" (material_uniforms stale_material)
    = Some (UFloat 11).
Proof.
  intros w.
  assert (Hne : m_objectMaterials (this w) ≠ []) by (vm_compute; discriminate).
  assert (Hnot : "glass" ∉ mat_tag <$> m_objectMaterials (this w))
    by (apply (bool_decide_unpack _); vm_compute; exact I).
  assert (Hsm : m_pShaderManager (this w) = Some []) by reflexivity.
  split; [exact Hne|]. split; [exact Hnot|]. split; [exact Hsm|].
  split; [|reflexivity].
  exact (SetShaderMaterial_undefined_tag_writes stale_material "glass" w []
           Hne Hnot Hsm).
Defined.

(** With no material defined, [SetShaderMaterial] pushes nothing. *)
Lemma SetShaderMaterial_empty material t w :
  m_objectMaterials (this w) = [] →
  SetShaderMaterial material t w = Some ((), w).
Proof. intros Hm. unfold SetShaderMaterial. run_M. by rewrite Hm. Qed.




Lemma copy_material_fields e material :
  let found := copy_material e material in
  ambientColor found = ambientColor e ∧
  ambientStrength found = ambientStrength e ∧
  diffuseColor found = diffuseColor e ∧
  specularColor found = specularColor e ∧
  shininess found = shininess e ∧
  mat_tag found = mat_tag material.
Proof. done. Qed.

(** ** The model matrix *)

Section Transformation_facts.

Variable glm_radians : float → float.
Variable glm_scale : vec3 → mat4.
Variable glm_rotate : float → vec3 → mat4.
Variable glm_translate : vec3 → mat4.
Variable mat4_mul : mat4 → mat4 → mat4.

Local Notation "a ⊗ b" := (mat4_mul a b) (at level 40, left associativity).
Local Abbreviation set_transformations :=
  (SetTransformations glm_radians glm_scale glm_rotate glm_translate mat4_mul).

Local Abbreviation compose :=
  (Compose_spec glm_radians glm_scale glm_rotate glm_translate mat4_mul).

(** C4.  For all scale, rotation and position inputs, with a shader
    manager in place, [SetTransformations] pushes to the uniform "model"
    exactly the matrix [translate(position) * rotateX(rx) * rotateY(ry) *
    rotateZ(rz) * scale(s)], translation outermost and scale innermost,
    and "model" holds that matrix afterwards. *)
Theorem SetTransformations_Compose_spec scaleXYZ rx ry rz positionXYZ w sm :
  let M := compose scaleXYZ rx ry rz positionXYZ in
  let sm' := sm ++ [(g_ModelName, UMat4 M)] in
  set_transformations scaleXYZ rx ry rz positionXYZ
      (mkWorld (gl_calls w) (with_shader (Some sm) (this w)))
    = Some ((), mkWorld (gl_calls w) (with_shader (Some sm') (this w))) ∧
  uniform g_ModelName sm' = Some (UMat4 M).
Proof.
  intros M sm'. split.
  - reflexivity.
  - unfold sm'. rewrite uniform_app. reflexivity.
Qed.

(** Without a shader manager the guard skips the push. *)
Lemma SetTransformations_no_shader scaleXYZ rx ry rz positionXYZ w :
  m_pShaderManager (this w) = None →
  set_transformations scaleXYZ rx ry rz positionXYZ w = Some ((), w).
Proof. intros H. unfold SetTransformations. run_M. by rewrite H. Qed.

(** With the product acting on points by composition, the scale is
    applied to a point first and the translation last. *)
Section Action.

Variable transform : mat4 → vec4 → vec4.
Hypothesis transform_mul :
  ∀ a b p, transform (a ⊗ b) p = transform a (transform b p).

Lemma Compose_spec_action scaleXYZ rx ry rz positionXYZ p :
  transform (compose scaleXYZ rx ry rz positionXYZ) p =
    transform (glm_translate positionXYZ)
      (transform (glm_rotate (glm_radians rx) (mkvec3 f1_0 f0_0 f0_0))
         (transform (glm_rotate (glm_radians ry) (mkvec3 f0_0 f1_0 f0_0))
            (transform (glm_rotate (glm_radians rz) (mkvec3 f0_0 f0_0 f1_0))
               (transform (glm_scale scaleXYZ) p)))).
Proof. unfold Compose_spec. cbv zeta. by rewrite !transform_mul. Qed.

End Action.

End Transformation_facts.

(** ** Further properties: shader state *)

Lemma shader_push w sm f :
  m_pShaderManager (this w) = Some sm →
  shader f w =
    Some ((), mkWorld (gl_calls w) (with_shader (Some (f sm)) (this w))).
Proof. intros Hsm. unfold shader. by rewrite Hsm. Qed.

Lemma uniform_not_pushed name (l : ShaderManager) :
  name ∉ l.*1 → uniform name l = None.
Proof.
  induction l as [|[n v] l IH]; [done|]. cbn [fmap list_fmap fst uniform].
  intros Hnot. apply not_elem_of_cons in Hnot as [Hne Hnot].
  rewrite IH by done. destruct (String.eqb_spec n name); [congruence | done].
Qed.

Lemma uniform_frame name (sm l : ShaderManager) :
  name ∉ l.*1 → uniform name (sm ++ l) = uniform name sm.
Proof. intros Hnot. by rewrite uniform_app, uniform_not_pushed. Qed.

Lemma SetShaderColor_pushes w sm r g b a :
  m_pShaderManager (this w) = Some sm →
  SetShaderColor r g b a w =
    Some ((), mkWorld (gl_calls w)
      (with_shader (Some (sm ++ [(g_UseTextureName, UInt 0);
                                 (g_ColorValueName, UVec4 (mkvec4 r g b a))]))
         (this w))).
Proof.
  intros Hsm. unfold SetShaderColor. run_M. rewrite Hsm.
  unfold shader. run_M. rewrite Hsm. run_M.
  unfold with_shader, setVec4Value, setIntValue, push_uniform.
  by rewrite <- app_assoc.
Qed.

Lemma SetTextureUVScale_pushes w sm u v :
  m_pShaderManager (this w) = Some sm →
  SetTextureUVScale u v w =
    Some ((), mkWorld (gl_calls w)
      (with_shader (Some (sm ++ [("UVscale", UVec2 (mkvec2 u v))])) (this w))).
Proof.
  intros Hsm. unfold SetTextureUVScale. run_M. rewrite Hsm.
  unfold shader. run_M. by rewrite Hsm.
Qed.

(** X14.  [SetShaderColor] and [SetShaderTexture] share the flag
    "bUseTexture" and the later call decides it: a colour set after a
    texture turns sampling off (flag 0) and leaves the sampler at the
    texture's slot; a texture set after a colour turns sampling on (flag 1)
    and leaves "objectColor" as set. *)
Theorem SetShaderColor_SetShaderTexture_last_wins w sm tag r g b a :
  registry_ok (this w) →
  m_pShaderManager (this w) = Some sm →
  ∃ slot sm1 sm2,
    FindTextureSlot tag (this w) = Some slot ∧
    (SetShaderTexture tag;; SetShaderColor r g b a) w
      = Some ((), mkWorld (gl_calls w) (with_shader (Some sm1) (this w))) ∧
    uniform g_UseTextureName sm1 = Some (UInt 0) ∧
    uniform g_TextureValueName sm1 = Some (USampler2D slot) ∧
    uniform g_ColorValueName sm1 = Some (UVec4 (mkvec4 r g b a)) ∧
    (SetShaderColor r g b a;; SetShaderTexture tag) w
      = Some ((), mkWorld (gl_calls w) (with_shader (Some sm2) (this w))) ∧
    uniform g_UseTextureName sm2 = Some (UInt 1) ∧
    uniform g_TextureValueName sm2 = Some (USampler2D slot) ∧
    uniform g_ColorValueName sm2 = Some (UVec4 (mkvec4 r g b a)).
Proof.
  intros Hok Hsm.
  exists (first_slot tag (registered_entries (this w))).
  eexists. eexists. split; [by apply FindTextureSlot_first_slot|].
  split.
  { unfold mbind, M_bind. rewrite (SetShaderTexture_pushes w sm) by done.
    rewrite (SetShaderColor_pushes _ _) by reflexivity.
    cbn [gl_calls this with_shader m_pShaderManager m_loadedTextures
         m_textureIDs m_objectMaterials]. unfold with_shader.
    rewrite <- app_assoc. reflexivity. }
  split; [rewrite uniform_app; reflexivity|].
  split; [rewrite uniform_app; reflexivity|].
  split; [rewrite uniform_app; reflexivity|].
  split.
  { unfold mbind, M_bind. rewrite (SetShaderColor_pushes w sm) by done.
    rewrite (SetShaderTexture_pushes _ _) by (done || reflexivity).
    cbn [gl_calls this with_shader m_pShaderManager m_loadedTextures
         m_textureIDs m_objectMaterials]. unfold with_shader, registered_entries.
    cbn [m_loadedTextures m_textureIDs].
    rewrite <- app_assoc. reflexivity. }
  split; [rewrite uniform_app; reflexivity|].
  split; [rewrite uniform_app; reflexivity|].
  rewrite uniform_app; reflexivity.
Qed.

(** A texture is bound, then a colour is set: the flag ends at 0, the
    sampler keeps slot 0. *)
Lemma SetShaderColor_SetShaderTexture_last_wins_witness :
  let w := world_after [OpCreateGLTexture "a.jpg" "A"; OpBindGLTextures] in
  registry_ok (this w) ∧ m_pShaderManager (this w) = Some [] ∧
  FindTextureSlot "A" (this w) = Some 0 ∧
  ∃ sm1,
    (SetShaderTexture "A";; SetShaderColor f1_0 f0_0 f0_0 f1_0) w
      = Some ((), mkWorld (gl_calls w) (with_shader (Some sm1) (this w))) ∧
    uniform g_UseTextureName sm1 = Some (UInt 0) ∧
    uniform g_TextureValueName sm1 = Some (USampler2D 0).
Proof.
  intros w.
  assert (Hok : registry_ok (this w))
    by (split; vm_compute; [intuition discriminate | reflexivity]).
  assert (Hsm : m_pShaderManager (this w) = Some []) by reflexivity.
  assert (H0 : FindTextureSlot "A" (this w) = Some 0)
    by (vm_compute; reflexivity).
  split; [exact Hok|]. split; [exact Hsm|]. split; [exact H0|].
  destruct (SetShaderColor_SetShaderTexture_last_wins w [] "A"
              f1_0 f0_0 f0_0 f1_0 Hok Hsm)
    as (slot & sm1 & sm2 & Hslot & Hrun & Hflag & Hsampler & _).
  exists sm1. split; [exact Hrun|]. split; [exact Hflag|].
  rewrite Hsampler. rewrite H0 in Hslot. by injection Hslot as <-.
Defined.

Ltac names_among Hin :=
  repeat (apply elem_of_cons in Hin as [->|Hin]; [repeat constructor|]);
  by apply elem_of_nil in Hin.

Section Draw_block.

Variable glm_radians : float → float.
Variable glm_scale : vec3 → mat4.
Variable glm_rotate : float → vec3 → mat4.
Variable glm_translate : vec3 → mat4.
Variable mat4_mul : mat4 → mat4 → mat4.

Local Abbreviation set_transformations :=
  (SetTransformations glm_radians glm_scale glm_rotate glm_translate mat4_mul).

Lemma SetTransformations_pushes w sm s rx ry rz p :
  m_pShaderManager (this w) = Some sm →
  set_transformations s rx ry rz p w =
    Some ((), mkWorld (gl_calls w)
      (with_shader
         (Some (sm ++ [(g_ModelName,
                        UMat4 (Compose_spec glm_radians glm_scale glm_rotate
                                 glm_translate mat4_mul s rx ry rz p))]))
         (this w))).
Proof.
  intros Hsm. unfold SetTransformations. run_M. rewrite Hsm.
  unfold shader. run_M. by rewrite Hsm.
Qed.

(** X15.  Setting the state of one object with [SetTransformations],
    [SetShaderTexture] and [SetShaderMaterial] writes only the uniforms
    "model", "bUseTexture", "objectTexture" and the five material fields:
    every other uniform, such as "UVscale" or "objectColor", keeps the value
    left by an earlier object. *)
Theorem draw_block_keeps_other_uniforms w sm s rx ry rz p tag material t :
  registry_ok (this w) →
  m_pShaderManager (this w) = Some sm →
  ∃ sm',
    (set_transformations s rx ry rz p;;
     SetShaderTexture tag;;
     SetShaderMaterial material t) w
      = Some ((), mkWorld (gl_calls w) (with_shader (Some sm') (this w))) ∧
    ∀ name, name ∉ block_uniform_names → uniform name sm' = uniform name sm.
Proof.
  intros Hok Hsm. unfold mbind, M_bind.
  rewrite (SetTransformations_pushes w sm) by done.
  rewrite (SetShaderTexture_pushes _ _) by (done || reflexivity).
  cbn [gl_calls this].
  destruct (m_objectMaterials (this w)) as [|m mats] eqn:Hm.
  - rewrite SetShaderMaterial_empty by done.
    eexists. split; [reflexivity|]. intros name Hname.
    rewrite <- app_assoc. apply uniform_frame.
    intros Hin. apply Hname. unfold material_uniforms in Hin.
    cbn in Hin. unfold block_uniform_names. names_among Hin.
  - erewrite SetShaderMaterial_found; [|by cbn; rewrite Hm|reflexivity].
    eexists. split; [reflexivity|]. intros name Hname.
    rewrite <- !app_assoc. apply uniform_frame.
    intros Hin. apply Hname. unfold material_uniforms in Hin.
    cbn in Hin. unfold block_uniform_names. names_among Hin.
Qed.

End Draw_block.

(** The UV scale set for one object is still in force after the state of
    the next object has been set. *)
Lemma draw_block_keeps_other_uniforms_witness :
  let w0 := world_after [OpCreateGLTexture "a.jpg" "A"; OpBindGLTextures] in
  let sm := [("UVscale", UVec2 (mkvec2 f16_0 f16_0))] in
  let w := mkWorld (gl_calls w0) (with_shader (Some sm) (this w0)) in
  registry_ok (this w) ∧ m_pShaderManager (this w) = Some sm ∧
  ∃ sm',
    (SetTransformations_zero (mkvec3 f1_0 f1_0 f1_0) f0_0 f0_0 f0_0
       (mkvec3 f0_0 f0_0 f0_0);;
     SetShaderTexture "A";;
     SetShaderMaterial stale_material "ceramic") w
      = Some ((), mkWorld (gl_calls w) (with_shader (Some sm') (this w))) ∧
    uniform "UVscale" sm' = Some (UVec2 (mkvec2 f16_0 f16_0)).
Proof.
  intros w0 sm w.
  assert (Hok : registry_ok (this w))
    by (split; vm_compute; [intuition discriminate | reflexivity]).
  assert (Hsm : m_pShaderManager (this w) = Some sm) by reflexivity.
  split; [exact Hok|]. split; [exact Hsm|].
  destruct (draw_block_keeps_other_uniforms (λ a, a) (λ _, mat4_zero)
              (λ _ _, mat4_zero) (λ _, mat4_zero) (λ _ _, mat4_zero)
              w sm (mkvec3 f1_0 f1_0 f1_0) f0_0 f0_0 f0_0
              (mkvec3 f0_0 f0_0 f0_0) "A" stale_material "ceramic" Hok Hsm)
    as (sm' & Hrun & Hframe).
  exists sm'. split; [exact Hrun|].
  rewrite (Hframe "UVscale"); [reflexivity|].
  apply (bool_decide_unpack _). vm_compute. exact I.
Defined.

(** X16.  Without a shader manager (null pointer), [SetTransformations],
    [SetShaderColor], [SetShaderTexture] and [SetTextureUVScale] change
    nothing; [SetShaderMaterial] changes nothing when no material is
    defined and dereferences the null pointer otherwise, as
    [SetupSceneLights] always does. *)
Theorem null_shader_manager
    (glm_radians : float → float) (glm_scale : vec3 → mat4)
    (glm_rotate : float → vec3 → mat4) (glm_translate : vec3 → mat4)
    (mat4_mul : mat4 → mat4 → mat4) w s rx ry rz p r g b a tag u v material t :
  m_pShaderManager (this w) = None →
  SetTransformations glm_radians glm_scale glm_rotate glm_translate mat4_mul
      s rx ry rz p w = Some ((), w) ∧
  SetShaderColor r g b a w = Some ((), w) ∧
  SetShaderTexture tag w = Some ((), w) ∧
  SetTextureUVScale u v w = Some ((), w) ∧
  SetShaderMaterial material t w
    = (if decide (m_objectMaterials (this w) = []) then Some ((), w) else None) ∧
  SetupSceneLights w = None.
Proof.
  intros Hnull. split_and!.
  - unfold SetTransformations. run_M. by rewrite Hnull.
  - unfold SetShaderColor. run_M. by rewrite Hnull.
  - unfold SetShaderTexture. run_M. by rewrite Hnull.
  - unfold SetTextureUVScale. run_M. by rewrite Hnull.
  - case_decide as Hm; [by apply SetShaderMaterial_empty|].
    unfold SetShaderMaterial. run_M.
    replace (vector_size (m_objectMaterials (this w)) >? 0) with true.
    2:{ symmetry. apply Z.gtb_lt. unfold vector_size.
        destruct (m_objectMaterials (this w)); [done | cbn [length]; lia]. }
    rewrite FindMaterial_first_match.
    destruct (m_objectMaterials (this w)); [done|].
    unfold shader. run_M. by rewrite Hnull.
  - destruct w as [gl0 [pShaderManager count ids mats]].
    cbn in Hnull. subst pShaderManager. vm_compute. reflexivity.
Qed.

(** A scene manager without shader manager, with the scene's materials
    defined: the guarded setters do nothing, the other two are undefined. *)
Lemma null_shader_manager_witness :
  let w := match DefineObjectMaterials detached_world with
           | Some (_, w) => w
           | None => detached_world
           end in
  m_pShaderManager (this w) = None ∧
  SetShaderTexture "ceramic" w = Some ((), w) ∧
  SetShaderMaterial stale_material "ceramic" w = None ∧
  SetupSceneLights w = None.
Proof.
  intros w.
  assert (Hnull : m_pShaderManager (this w) = None) by reflexivity.
  split; [exact Hnull|].
  destruct (null_shader_manager (λ a, a) (λ _, mat4_zero) (λ _ _, mat4_zero)
              (λ _, mat4_zero) (λ _ _, mat4_zero) w
              (mkvec3 f1_0 f1_0 f1_0) f0_0 f0_0 f0_0 (mkvec3 f0_0 f0_0 f0_0)
              f0_0 f0_0 f0_0 f1_0 "ceramic" f1_0 f1_0 stale_material "ceramic"
              Hnull)
    as (_ & _ & Htexture & _ & Hmaterial & Hlights).
  split; [exact Htexture|]. split; [exact Hmaterial | exact Hlights].
Defined.

(** X13.  For a defined tag, with a shader manager in place,
    [SetShaderMaterial] pushes the five fields of the first entry with
    that tag, whatever its uninitialised local held, and the five material
    uniforms hold these values afterwards. *)
Theorem SetShaderMaterial_defined_tag w sm material l1 e l2 :
  m_objectMaterials (this w) = l1 ++ e :: l2 →
  mat_tag e ∉ mat_tag <$> l1 →
  m_pShaderManager (this w) = Some sm →
  let sm' := sm ++ material_uniforms e in
  SetShaderMaterial material (mat_tag e) w
    = Some ((), mkWorld (gl_calls w) (with_shader (Some sm') (this w))) ∧
  uniform "material.ambientColor" sm' = Some (UVec3 (ambientColor e)) ∧
  uniform "material.ambientStrength" sm' = Some (UFloat (ambientStrength e)) ∧
  uniform "material.diffuseColor" sm' = Some (UVec3 (diffuseColor e)) ∧
  uniform "material.specularColor" sm' = Some (UVec3 (specularColor e)) ∧
  uniform "material.shininess" sm' = Some (UFloat (shininess e)).
Proof.
  intros Hm Hnot Hsm sm'. split_and!;
    try (unfold sm'; rewrite uniform_app; reflexivity).
  rewrite (SetShaderMaterial_found _ _ _ sm) by (done || rewrite Hm; by destruct l1).
  rewrite Hm.
  replace (list_find (λ x, mat_tag x = mat_tag e) (l1 ++ e :: l2))
    with (Some (length l1, e)); [done|].
  symmetry. apply list_find_Some. split_and!.
  - by rewrite list_lookup_middle.
  - done.
  - intros j y Hj Hlt Heq. rewrite lookup_app_l in Hj by done.
    apply Hnot, list_elem_of_fmap. exists y. split; [done|].
    by eapply list_elem_of_lookup_2.
Qed.

(** "ceramic" is defined twice; the uniforms get the values of the first
    definition, whatever the local held. *)
Lemma SetShaderMaterial_defined_tag_witness :
  let w := mkWorld [] (with_materials [paper_plain; ceramic_matte; ceramic_glossy]
                         (SceneManager_new (Some []))) in
  m_objectMaterials (this w) = [paper_plain] ++ ceramic_matte :: [ceramic_glossy] ∧
  (mat_tag ceramic_matte ∉ mat_tag <$> [paper_plain]) ∧
  m_pShaderManager (this w) = Some [] ∧
  SetShaderMaterial stale_material "ceramic" w
    = Some ((), mkWorld (gl_calls w)
              (with_shader (Some (material_uniforms ceramic_matte)) (this w))) ∧
  uniform "material.shininess" (material_uniforms ceramic_matte)
    = Some (UFloat f1_0).
Proof.
  intros w.
  assert (Hm : m_objectMaterials (this w)
               = [paper_plain] ++ ceramic_matte :: [ceramic_glossy])
    by reflexivity.
  assert (Hnot : mat_tag ceramic_matte ∉ mat_tag <$> [paper_plain])
    by (apply (bool_decide_unpack _); vm_compute; exact I).
  assert (Hsm : m_pShaderManager (this w) = Some []) by reflexivity.
  split; [exact Hm|]. split; [exact Hnot|]. split; [exact Hsm|].
  destruct (SetShaderMaterial_defined_tag w [] stale_material [paper_plain]
              ceramic_matte [ceramic_glossy] Hm Hnot Hsm)
    as (Hrun & _ & _ & _ & _ & Hshine).
  split; [exact Hrun | exact Hshine].
Defined.




(** ** Further properties: texture registry *)

Lemma registered_entries_lookup sc (i : nat) e :
  registered_entries sc !! i = Some e ↔
  m_textureIDs sc !! i = Some e ∧ (i < Z.to_nat (m_loadedTextures sc))%nat.
Proof. unfold registered_entries. apply lookup_take_Some. Qed.

(** X1.  [FindTextureID] and [FindTextureSlot] read the same entry: for a
    tag in use the one returns the GL name stored (converted to [int]) at
    the slot the other returns, and that entry carries the tag; for a tag
    not in use both return [-1]. *)
Theorem FindTextureID_at_slot sc tag :
  registry_ok sc →
  ∃ slot,
    FindTextureSlot tag sc = Some slot ∧
    ((slot = -1 ∧ FindTextureID tag sc = Some (-1) ∧ tag ∉ registered_tags sc) ∨
     (0 ≤ slot < m_loadedTextures sc ∧
      ∃ id, m_textureIDs sc !! Z.to_nat slot = Some (mkTEXTURE_INFO tag id) ∧
            FindTextureID tag sc = Some (to_int id))).
Proof.
  intros Hok.
  rewrite FindTextureSlot_first_slot, FindTextureID_first_match by exact Hok.
  unfold first_slot.
  destruct (list_find (λ e, tex_tag e = tag) (registered_entries sc))
    as [[i e]|] eqn:Hfind.
  - exists (Z.of_nat i). split; [reflexivity|]. right.
    apply list_find_Some in Hfind as (Hi & Htag & _).
    apply registered_entries_lookup in Hi as [Hi Hlt].
    rewrite Nat2Z.id. split; [lia|]. exists (tex_ID e).
    split; [|reflexivity]. rewrite Hi. destruct e as [t id]. cbn in *.
    by subst.
  - exists (-1). split; [reflexivity|]. left. split; [reflexivity|].
    split; [reflexivity|].
    intros (e & Ht & He)%list_elem_of_fmap.
    apply list_find_None in Hfind.
    rewrite Forall_forall in Hfind. by apply (Hfind e He).
Qed.

(** Two textures registered and bound: slot and GL name of a tag are
    read from the same entry. *)
Lemma FindTextureID_at_slot_witness :
  let w := world_after [OpCreateGLTexture "a.jpg" "A";
                        OpCreateGLTexture "b.png" "B"; OpBindGLTextures] in
  registry_ok (this w) ∧
  ∃ slot,
    FindTextureSlot "B" (this w) = Some slot ∧
    ((slot = -1 ∧ FindTextureID "B" (this w) = Some (-1) ∧
      "B" ∉ registered_tags (this w)) ∨
     (0 ≤ slot < m_loadedTextures (this w) ∧
      ∃ id, m_textureIDs (this w) !! Z.to_nat slot = Some (mkTEXTURE_INFO "B" id) ∧
            FindTextureID "B" (this w) = Some (to_int id))).
Proof.
  intros w.
  assert (Hok : registry_ok (this w))
    by (split; vm_compute; [intuition discriminate | reflexivity]).
  split; [exact Hok|].
  exact (FindTextureID_at_slot (this w) "B" Hok).
Defined.

(** X2.  [FindTextureSlot] returns the least index in use that carries the
    tag, and [-1] exactly when no entry in use carries it: the array
    entries at or beyond [m_loadedTextures] are never matched. *)
Theorem FindTextureSlot_least_index sc tag :
  registry_ok sc →
  ∃ slot,
    FindTextureSlot tag sc = Some slot ∧
    (slot = -1 ↔ tag ∉ registered_tags sc) ∧
    (slot ≠ -1 →
       0 ≤ slot < m_loadedTextures sc ∧
       registered_tags sc !! Z.to_nat slot = Some tag ∧
       ∀ j, (j < Z.to_nat slot)%nat → registered_tags sc !! j ≠ Some tag).
Proof.
  intros Hok. rewrite FindTextureSlot_first_slot by exact Hok.
  rewrite first_slot_tags. fold (registered_tags sc).
  destruct (list_find (λ t, t = tag) (registered_tags sc))
    as [[i t]|] eqn:Hfind.
  - exists (Z.of_nat i). split; [reflexivity|].
    apply list_find_Some in Hfind as (Hi & -> & Hbefore).
    split.
    + split; [lia|]. intros Hnot. exfalso. apply Hnot.
      by eapply list_elem_of_lookup_2.
    + intros _. rewrite Nat2Z.id. split_and!.
      * lia.
      * apply lookup_lt_Some in Hi. unfold registered_tags in Hi.
        rewrite length_fmap, registered_entries_length in Hi by exact Hok. lia.
      * exact Hi.
      * intros j Hj Heq. by apply (Hbefore j tag).
  - exists (-1). split; [reflexivity|]. split; [|by intros []].
    split; [|reflexivity].
    intros _ Hin. apply list_find_None in Hfind.
    rewrite Forall_forall in Hfind. by apply (Hfind tag Hin).
Qed.

(** In a new scene manager all sixteen array entries carry the empty tag,
    yet the empty tag is not found: none of them is in use. *)
Lemma FindTextureSlot_least_index_witness :
  registry_ok (SceneManager_new None) ∧
  m_textureIDs (SceneManager_new None) !! 0%nat = Some (mkTEXTURE_INFO "" 0) ∧
  ∃ slot,
    FindTextureSlot "" (SceneManager_new None) = Some slot ∧ slot = -1.
Proof.
  assert (Hok : registry_ok (SceneManager_new None)) by apply registry_ok_new.
  split; [exact Hok|]. split; [reflexivity|].
  destruct (FindTextureSlot_least_index (SceneManager_new None) "" Hok)
    as (slot & Hslot & Hneg & _).
  exists slot. split; [exact Hslot|].
  apply Hneg. rewrite registered_tags_new. apply not_elem_of_nil.
Defined.

Lemma replay_bind_calls_active entries : ∀ k active bound,
  (replay_units (bind_calls k entries) active bound).1 =
    match entries with
    | [] => active
    | _ => k + Z.of_nat (length entries) - 1
    end.
Proof.
  induction entries as [|e entries IH]; intros k active bound; [done|].
  cbn [bind_calls replay_units]. rewrite IH.
  destruct entries; cbn [length]; lia.
Qed.

Lemma unit_binding_bind_calls gl0 entries u :
  unit_binding (gl0 ++ bind_calls 0 entries) u =
    match entries !! Z.to_nat u with
    | Some e => if 0 <=? u then Some (tex_ID e) else unit_binding gl0 u
    | None => unit_binding gl0 u
    end.
Proof.
  unfold unit_binding. rewrite replay_units_app, replay_bind_calls.
  by replace (u - 0) with u by lia.
Qed.

(** X3.  [BindGLTextures] leaves the scene manager as it is, binds the
    texture of entry [i] to texture unit [i] for every entry in use and
    leaves the other units alone; running it a second time changes the
    binding of no unit. *)
Theorem BindGLTextures_twice w :
  registry_ok (this w) →
  ∃ w1 w2,
    BindGLTextures w = Some ((), w1) ∧
    BindGLTextures w1 = Some ((), w2) ∧
    this w1 = this w ∧ this w2 = this w ∧
    (∀ (i : nat) e, registered_entries (this w) !! i = Some e →
       unit_binding (gl_calls w1) (Z.of_nat i) = Some (tex_ID e)) ∧
    (∀ u, ¬ (0 ≤ u < m_loadedTextures (this w)) →
       unit_binding (gl_calls w1) u = unit_binding (gl_calls w) u) ∧
    (∀ u, unit_binding (gl_calls w2) u = unit_binding (gl_calls w1) u).
Proof.
  intros Hok. eexists. eexists.
  split; [by apply BindGLTextures_calls|].
  split; [by apply BindGLTextures_calls|].
  cbn [this gl_calls]. split; [reflexivity|]. split; [reflexivity|].
  split_and!.
  - intros i e He. rewrite unit_binding_bind_calls, Nat2Z.id, He.
    by replace (0 <=? Z.of_nat i) with true by (symmetry; apply Z.leb_le; lia).
  - intros u Hu. rewrite unit_binding_bind_calls.
    destruct (registered_entries (this w) !! Z.to_nat u) as [e|] eqn:He;
      [|reflexivity].
    destruct (Z.leb_spec 0 u) as [H0|H0]; [|reflexivity].
    apply lookup_lt_Some in He.
    rewrite registered_entries_length in He by exact Hok. lia.
  - intros u. rewrite (unit_binding_bind_calls (_ ++ _)).
    destruct (registered_entries (this w) !! Z.to_nat u) as [e|] eqn:He;
      [|reflexivity].
    destruct (Z.leb_spec 0 u) as [H0|H0]; [|reflexivity].
    rewrite unit_binding_bind_calls, He.
    by replace (0 <=? u) with true by (symmetry; apply Z.leb_le; lia).
Qed.

(** Two textures: binding binds units 0 and 1; binding again changes no
    unit. *)
Lemma BindGLTextures_twice_witness :
  let w := world_after [OpCreateGLTexture "a.jpg" "A";
                        OpCreateGLTexture "b.png" "B"] in
  registry_ok (this w) ∧
  registered_entries (this w) !! 1%nat = Some (mkTEXTURE_INFO "B" 2) ∧
  ∃ w1 w2,
    BindGLTextures w = Some ((), w1) ∧
    BindGLTextures w1 = Some ((), w2) ∧
    unit_binding (gl_calls w1) 1 = Some 2 ∧
    unit_binding (gl_calls w2) 1 = Some 2.
Proof.
  intros w.
  assert (Hok : registry_ok (this w))
    by (split; vm_compute; [intuition discriminate | reflexivity]).
  assert (He : registered_entries (this w) !! 1%nat = Some (mkTEXTURE_INFO "B" 2))
    by (vm_compute; reflexivity).
  split; [exact Hok|]. split; [exact He|].
  destruct (BindGLTextures_twice w Hok)
    as (w1 & w2 & H1 & H2 & _ & _ & Hunits & _ & Hsame).
  exists w1, w2. split; [exact H1|]. split; [exact H2|].
  pose proof (Hunits 1%nat _ He) as Hu. cbn [tex_ID] in Hu.
  split; [exact Hu|]. rewrite (Hsame 1). exact Hu.
Defined.

Lemma replay_create name image active bound :
  replay_units (create_prologue name ++ create_upload image) active bound =
    (active, (active, 0) :: (active, name) :: bound).
Proof. reflexivity. Qed.

Lemma replay_create_prologue name active bound :
  replay_units (create_prologue name) active bound =
    (active, (active, name) :: bound).
Proof. reflexivity. Qed.

Lemma texture_names_le gl name :
  name ∈ texture_names gl → name ≤ foldr Z.max 0 (texture_names gl).
Proof.
  induction (texture_names gl) as [|x l IH]; [by intros ?%elem_of_nil|].
  intros [->|Hin]%elem_of_cons; cbn [foldr]; [lia|].
  specialize (IH Hin). lia.
Qed.

Lemma fresh_texture_name_fresh gl :
  fresh_texture_name gl ∉ texture_names gl.
Proof.
  intros Hin%texture_names_le. unfold fresh_texture_name in Hin. lia.
Qed.

(** X4.  After [BindGLTextures] the selected texture unit is the last one
    bound, and [CreateGLTexture] binds (and then unbinds) on the selected
    unit: a successful registration made after binding leaves the last
    bound unit with texture 0, the other units as they were. *)
Theorem CreateGLTexture_after_bind
    (stbi_load : string → option stbi_image) w filename tag image :
  registry_ok (this w) →
  0 < m_loadedTextures (this w) < MAX_TEXTURES →
  stbi_load filename = Some image →
  img_channels image = 3 ∨ img_channels image = 4 →
  let last := m_loadedTextures (this w) - 1 in
  ∃ w1 w2 e,
    BindGLTextures w = Some ((), w1) ∧
    CreateGLTexture stbi_load filename tag w1 = Some (true, w2) ∧
    active_unit (gl_calls w1) = last ∧
    registered_entries (this w) !! Z.to_nat last = Some e ∧
    unit_binding (gl_calls w1) last = Some (tex_ID e) ∧
    unit_binding (gl_calls w2) last = Some 0 ∧
    (∀ u, u ≠ last →
       unit_binding (gl_calls w2) u = unit_binding (gl_calls w1) u).
Proof.
  intros Hok Hcount Hload Hc last.
  destruct (registered_entries (this w) !! Z.to_nat last) as [e|] eqn:He.
  2:{ apply lookup_ge_None in He.
      rewrite registered_entries_length in He by exact Hok.
      unfold last in He. lia. }
  eexists. eexists. exists e.
  split; [by apply BindGLTextures_calls|].
  split.
  { apply (CreateGLTexture_stored _ _ _ image);
      [exact Hload | exact Hc | exact Hok | cbn [this]; lia]. }
  cbn [gl_calls this].
  assert (Hactive : active_unit (gl_calls w
                      ++ bind_calls 0 (registered_entries (this w))) = last).
  { unfold active_unit. rewrite replay_units_app, replay_bind_calls_active.
    rewrite registered_entries_length by exact Hok.
    destruct (registered_entries (this w)) eqn:Hentries.
    - apply (f_equal length) in Hentries.
      rewrite registered_entries_length in Hentries by exact Hok.
      cbn in Hentries. lia.
    - unfold last. lia. }
  split; [exact Hactive|]. split; [reflexivity|].
  split.
  { rewrite unit_binding_bind_calls, He.
    by replace (0 <=? last) with true
      by (symmetry; apply Z.leb_le; unfold last; lia). }
  unfold active_unit in Hactive.
  split.
  - unfold unit_binding. rewrite replay_units_app, replay_create.
    cbn [snd binding_of]. rewrite Hactive. by rewrite Z.eqb_refl.
  - intros u Hu. unfold unit_binding at 1.
    rewrite replay_units_app, replay_create.
    cbn [snd binding_of]. rewrite Hactive.
    replace (last =? u) with false by (symmetry; apply Z.eqb_neq; lia).
    reflexivity.
Qed.

(** "A" is registered and bound to unit 0; registering "B" afterwards
    leaves unit 0 without texture. *)
Lemma CreateGLTexture_after_bind_witness :
  let w := world_after [OpCreateGLTexture "a.jpg" "A"] in
  registry_ok (this w) ∧ 0 < m_loadedTextures (this w) < MAX_TEXTURES ∧
  sample_files "b.png" = Some (mkimage 2 2 4 []) ∧
  ∃ w1 w2,
    BindGLTextures w = Some ((), w1) ∧
    CreateGLTexture sample_files "b.png" "B" w1 = Some (true, w2) ∧
    unit_binding (gl_calls w1) 0 = Some 1 ∧
    unit_binding (gl_calls w2) 0 = Some 0.
Proof.
  intros w.
  assert (Hok : registry_ok (this w))
    by (split; vm_compute; [intuition discriminate | reflexivity]).
  assert (Hcount : 0 < m_loadedTextures (this w) < MAX_TEXTURES)
    by (vm_compute; split; reflexivity).
  split; [exact Hok|]. split; [exact Hcount|]. split; [reflexivity|].
  destruct (CreateGLTexture_after_bind sample_files w "b.png" "B"
              (mkimage 2 2 4 []) Hok Hcount eq_refl (or_intror eq_refl))
    as (w1 & w2 & e & Hbind & Hcreate & _ & He & Hbound & Hunbound & _).
  exists w1, w2. split; [exact Hbind|]. split; [exact Hcreate|].
  vm_compute in He. injection He as <-.
  split; [exact Hbound | exact Hunbound].
Defined.

(** X5.  The two failures of [CreateGLTexture]: for a file that cannot be
    read nothing changes at all; for an image with an unsupported channel
    count the scene manager is unchanged, but a new texture name has been
    generated and is left bound on the selected texture unit. *)
Theorem CreateGLTexture_failure
    (stbi_load : string → option stbi_image) w filename tag :
  (stbi_load filename = None →
     CreateGLTexture stbi_load filename tag w = Some (false, w)) ∧
  (∀ image, stbi_load filename = Some image →
     img_channels image ≠ 3 → img_channels image ≠ 4 →
     ∃ w' name,
       CreateGLTexture stbi_load filename tag w = Some (false, w') ∧
       this w' = this w ∧
       (name ∉ texture_names (gl_calls w)) ∧
       texture_names (gl_calls w') = texture_names (gl_calls w) ++ [name] ∧
       unit_binding (gl_calls w') (active_unit (gl_calls w)) = Some name).
Proof.
  split; [apply CreateGLTexture_unreadable|].
  intros image Hload H3 H4.
  eexists. exists (fresh_texture_name (gl_calls w)).
  split; [by apply (CreateGLTexture_unsupported _ _ _ image)|].
  cbn [this gl_calls]. split; [reflexivity|].
  split; [apply fresh_texture_name_fresh|].
  split; [by rewrite texture_names_app|].
  unfold unit_binding, active_unit.
  rewrite replay_units_app, replay_create_prologue.
  cbn [snd binding_of]. by rewrite Z.eqb_refl.
Qed.

(** X6.  A successful [CreateGLTexture] changes the slot of no tag that is
    already registered, also when it registers the same tag again (the new
    entry is then never found by its tag); a new tag gets the next slot,
    the former count, and every other tag still resolves to [-1]. *)
Theorem CreateGLTexture_keeps_slots
    (stbi_load : string → option stbi_image) w filename tag image :
  registry_ok (this w) →
  m_loadedTextures (this w) < MAX_TEXTURES →
  stbi_load filename = Some image →
  img_channels image = 3 ∨ img_channels image = 4 →
  ∃ w',
    CreateGLTexture stbi_load filename tag w = Some (true, w') ∧
    ∀ t, FindTextureSlot t (this w') =
           if decide (t ∈ registered_tags (this w))
           then FindTextureSlot t (this w)
           else if decide (t = tag) then Some (m_loadedTextures (this w))
           else Some (-1).
Proof.
  intros Hok Hlt Hload Hc.
  pose proof (CreateGLTexture_stored _ _ tag _ w Hload Hc Hok Hlt) as Hcreate.
  eexists. split; [exact Hcreate|].
  match type of Hcreate with _ = Some (_, ?v) => set (w' := v) in * end.
  assert (Hperform : perform stbi_load (OpCreateGLTexture filename tag) w
                     = Some ((), w')).
  { cbn [perform]. unfold mbind, M_bind. by rewrite Hcreate. }
  apply perform_registry in Hperform as (Hok' & Htags & _); [|exact Hok].
  cbn [registrations] in Htags.
  replace (loadable stbi_load filename) with true in Htags
    by (symmetry; apply loadable_spec; eauto).
  intros t.
  rewrite !FindTextureSlot_first_slot, !first_slot_tags by done.
  fold (registered_tags (this w')) (registered_tags (this w)).
  rewrite Htags.
  assert (Hlen : Z.of_nat (length (registered_tags (this w)))
                 = m_loadedTextures (this w)).
  { unfold registered_tags.
    rewrite length_fmap, registered_entries_length by exact Hok.
    destruct Hok. lia. }
  destruct (list_find (λ x, x = t) (registered_tags (this w)))
    as [[i x]|] eqn:Hfind.
  - rewrite (list_find_app_l _ _ _ _ _ Hfind).
    apply list_find_Some in Hfind as (Hi & -> & _).
    rewrite decide_True by (by eapply list_elem_of_lookup_2). reflexivity.
  - rewrite (list_find_app_r _ _ _ Hfind).
    apply list_find_None in Hfind. rewrite Forall_forall in Hfind.
    rewrite decide_False by (intros Hin; by apply (Hfind t Hin)).
    cbn [list_find]. case_decide as Htag.
    + subst t. rewrite decide_True by done. cbn. f_equal. lia.
    + rewrite decide_False by done. reflexivity.
Qed.

(** "A" is registered twice: the second registration takes slot 1, the
    tag still resolves to slot 0. *)
Lemma CreateGLTexture_keeps_slots_witness :
  let w := world_after [OpCreateGLTexture "a.jpg" "A"] in
  registry_ok (this w) ∧ m_loadedTextures (this w) < MAX_TEXTURES ∧
  sample_files "b.png" = Some (mkimage 2 2 4 []) ∧
  ∃ w',
    CreateGLTexture sample_files "b.png" "A" w = Some (true, w') ∧
    FindTextureSlot "A" (this w') = FindTextureSlot "A" (this w) ∧
    FindTextureSlot "B" (this w') = Some (-1).
Proof.
  intros w.
  assert (Hok : registry_ok (this w))
    by (split; vm_compute; [intuition discriminate | reflexivity]).
  assert (Hlt : m_loadedTextures (this w) < MAX_TEXTURES)
    by (vm_compute; reflexivity).
  split; [exact Hok|]. split; [exact Hlt|]. split; [reflexivity|].
  destruct (CreateGLTexture_keeps_slots sample_files w "b.png" "A"
              (mkimage 2 2 4 []) Hok Hlt eq_refl (or_intror eq_refl))
    as (w' & Hcreate & Hslots).
  exists w'. split; [exact Hcreate|]. split.
  - rewrite (Hslots "A"). apply decide_True.
    apply (bool_decide_unpack _). vm_compute. exact I.
  - rewrite (Hslots "B"). rewrite decide_False.
    + apply decide_False. discriminate.
    + apply (bool_decide_unpack _). vm_compute. exact I.
Defined.

Lemma registered_tags_length sc :
  registry_ok sc →
  Z.of_nat (length (registered_tags sc)) = m_loadedTextures sc.
Proof.
  intros Hok. unfold registered_tags.
  rewrite length_fmap, registered_entries_length by exact Hok.
  destruct Hok. lia.
Qed.

Section Capacity.

Variable stbi_load : string → option stbi_image.

Lemma perform_defined op w :
  registry_ok (this w) →
  m_loadedTextures (this w)
    + Z.of_nat (length (registrations stbi_load [op])) ≤ MAX_TEXTURES →
  is_Some (perform stbi_load op w).
Proof.
  intros Hok Hroom. destruct op as [filename tag| |]; cbn [perform].
  - unfold mbind, M_bind. cbn [registrations] in Hroom.
    unfold loadable in Hroom.
    destruct (stbi_load filename) as [image|] eqn:Hload.
    2:{ by rewrite CreateGLTexture_unreadable. }
    destruct (decide (img_channels image = 3 ∨ img_channels image = 4))
      as [Hc|Hc].
    + replace ((img_channels image =? 3) || (img_channels image =? 4))
        with true in Hroom
        by (symmetry; apply orb_true_iff; rewrite !Z.eqb_eq; done).
      cbn [length] in Hroom.
      rewrite (CreateGLTexture_stored _ _ _ image) by (done || lia). done.
    + rewrite (CreateGLTexture_unsupported _ _ _ image) by tauto. done.
  - rewrite BindGLTextures_calls by exact Hok. done.
  - destruct (DestroyGLTextures_invariant w Hok) as (v & -> & _). done.
Qed.

Lemma run_within_capacity ops : ∀ w,
  registry_ok (this w) →
  m_loadedTextures (this w)
    + Z.of_nat (length (registrations stbi_load ops)) ≤ MAX_TEXTURES →
  is_Some (run stbi_load ops w).
Proof.
  induction ops as [|op ops IH]; intros w Hok Hroom; [done|].
  change (op :: ops) with ([op] ++ ops) in Hroom.
  rewrite registrations_app, length_app in Hroom.
  destruct (perform_defined op w Hok) as [[[] v] Hop]; [lia|].
  cbn [run]. unfold mbind, M_bind. rewrite Hop.
  destruct (perform_registry stbi_load op w v Hok Hop) as (Hokv & Htags & _).
  apply IH; [exact Hokv|].
  apply (f_equal length) in Htags. rewrite length_app in Htags.
  pose proof (registered_tags_length _ Hok).
  pose proof (registered_tags_length _ Hokv). lia.
Qed.

(** X7.  A history of [CreateGLTexture], [BindGLTextures] and
    [DestroyGLTextures] calls has a defined outcome exactly when the count
    at its start plus the number of its successful registrations does not
    exceed the sixteen entries of the array. *)
Theorem run_defined_iff_within_capacity ops w :
  registry_ok (this w) →
  is_Some (run stbi_load ops w) ↔
  m_loadedTextures (this w)
    + Z.of_nat (length (registrations stbi_load ops)) ≤ MAX_TEXTURES.
Proof.
  intros Hok. split; [|by apply run_within_capacity].
  intros [[[] w'] Hrun].
  apply run_registry in Hrun as (Hok' & Htags & _); [|exact Hok].
  apply (f_equal length) in Htags. rewrite length_app in Htags.
  pose proof (registered_tags_length _ Hok).
  pose proof (registered_tags_length _ Hok').
  destruct Hok'. lia.
Qed.

End Capacity.

(** Sixteen registrations from a new scene manager are within capacity. *)
Lemma run_defined_iff_within_capacity_witness :
  let ops := replicate 16 (OpCreateGLTexture "a.jpg" "A") in
  registry_ok (this fresh_world) ∧
  is_Some (run sample_files ops fresh_world) ∧
  ¬ is_Some (run sample_files (OpCreateGLTexture "b.png" "B" :: ops) fresh_world).
Proof.
  intros ops.
  assert (Hok : registry_ok (this fresh_world)) by apply registry_ok_new.
  split; [exact Hok|]. split.
  - apply (run_defined_iff_within_capacity sample_files ops fresh_world Hok).
    vm_compute. discriminate.
  - intros Hsome.
    apply (run_defined_iff_within_capacity sample_files _ fresh_world Hok)
      in Hsome.
    vm_compute in Hsome. by apply Hsome.
Defined.

Section Scene_textures.

Variable stbi_load : string → option stbi_image.

Lemma LoadSceneTextures_run w :
  LoadSceneTextures stbi_load w = run stbi_load scene_textures w.
Proof.
  unfold LoadSceneTextures, scene_textures. cbn [run perform].
  unfold mbind, M_bind, mret, M_ret.
  repeat (destruct (CreateGLTexture stbi_load _ _ _) as [[? ?]|]; [|reflexivity]).
  by destruct (BindGLTextures _) as [[[] ?]|].
Qed.

Lemma scene_registrations_NoDup :
  NoDup (registrations stbi_load scene_textures).
Proof.
  unfold scene_textures. cbn [registrations].
  repeat (destruct (loadable stbi_load _));
    apply (bool_decide_unpack _); vm_compute; exact I.
Qed.

Lemma scene_registrations_length :
  (length (registrations stbi_load scene_textures) ≤ 6)%nat.
Proof.
  unfold scene_textures. cbn [registrations].
  repeat (destruct (loadable stbi_load _)); cbn [length]; lia.
Qed.

(** X8.  [LoadSceneTextures] on a new scene manager always has a defined
    outcome, whatever the six files hold.  The tags in use are those whose
    file loaded, in the order of the calls; each resolves to its position
    among them (so a file that fails moves the later tags one slot down)
    and its texture is bound to the unit of that number.  Shader manager
    and materials are untouched. *)
Theorem LoadSceneTextures_slots pShaderManager gl0 :
  ∃ w,
    LoadSceneTextures stbi_load (mkWorld gl0 (SceneManager_new pShaderManager))
      = Some ((), w) ∧
    registered_tags (this w) = registrations stbi_load scene_textures ∧
    m_pShaderManager (this w) = pShaderManager ∧
    m_objectMaterials (this w) = [] ∧
    ∀ (i : nat) tag,
      registrations stbi_load scene_textures !! i = Some tag →
      FindTextureSlot tag (this w) = Some (Z.of_nat i) ∧
      ∃ e, m_textureIDs (this w) !! i = Some e ∧ tex_tag e = tag ∧
           unit_binding (gl_calls w) (Z.of_nat i) = Some (tex_ID e).
Proof.
  set (w0 := mkWorld gl0 (SceneManager_new pShaderManager)).
  assert (Hok0 : registry_ok (this w0)) by apply registry_ok_new.
  destruct (run_within_capacity stbi_load scene_textures w0 Hok0)
    as [[[] w] Hrun].
  { pose proof scene_registrations_length as Hlen.
    change (m_loadedTextures (this w0)) with 0. unfold MAX_TEXTURES. lia. }
  exists w. split; [by rewrite LoadSceneTextures_run|].
  pose proof Hrun as Hreg.
  apply run_registry in Hreg as (Hok & Htags & Hsm & Hmats); [|exact Hok0].
  cbn [this w0] in Htags, Hsm, Hmats.
  rewrite registered_tags_new in Htags. cbn [app] in Htags.
  split; [exact Htags|]. split; [exact Hsm|]. split; [exact Hmats|].
  intros i tag Hi. split.
  - apply FindTextureSlot_registered; [exact Hok | by rewrite Htags |].
    rewrite Htags. intros j Hj Hjtag.
    pose proof (NoDup_lookup _ _ _ _ scene_registrations_NoDup Hi Hjtag). lia.
  - change scene_textures
      with (removelast scene_textures ++ [OpBindGLTextures]) in Hrun.
    rewrite run_app in Hrun.
    destruct (run stbi_load (removelast scene_textures) w0)
      as [[[] v]|] eqn:Hv; [|discriminate].
    apply run_registry in Hv as (Hokv & Htagsv & _); [|exact Hok0].
    cbn [this w0] in Htagsv.
    rewrite registered_tags_new in Htagsv. cbn [app] in Htagsv.
    assert (Hsame : registrations stbi_load (removelast scene_textures)
                    = registrations stbi_load scene_textures).
    { change scene_textures
        with (removelast scene_textures ++ [OpBindGLTextures]) at 2.
      rewrite registrations_app. cbn [registrations]. by rewrite app_nil_r. }
    rewrite Hsame in Htagsv. rewrite <- Htagsv in Hi.
    unfold registered_tags in Hi. rewrite list_lookup_fmap in Hi.
    destruct (registered_entries (this v) !! i) as [e|] eqn:He; [|discriminate].
    injection Hi as Htag.
    destruct (BindGLTextures_units v i e Hokv He) as (v' & Hbind & Hthis & Hunit).
    cbn [run perform] in Hrun. unfold mbind, M_bind, mret, M_ret in Hrun.
    rewrite Hbind in Hrun. injection Hrun as <-.
    exists e. rewrite Hthis. split_and!; [|exact Htag|exact Hunit].
    unfold registered_entries in He. by apply lookup_take_Some in He as [He _].
Qed.

End Scene_textures.

(** When every file loads, the textures get the tags of the materials and
    the slots 0 to 5 in that order. *)
Lemma scene_registrations_all_loaded :
  registrations all_rgb_files scene_textures = scene_material_tags.
Proof. reflexivity. Qed.

(** X9.  [DestroyGLTextures] generates one texture name per entry in use
    and stores it over the entry's [ID]: afterwards the entries in use
    hold, in order, exactly the names generated by the call, none of which
    was allocated before, and every name allocated before is still
    allocated. *)
Theorem DestroyGLTextures_replaces_names w :
  registry_ok (this w) →
  ∃ w' new,
    DestroyGLTextures w = Some ((), w') ∧
    texture_names (gl_calls w') = texture_names (gl_calls w) ++ new ∧
    tex_ID <$> registered_entries (this w') = new ∧
    length new = Z.to_nat (m_loadedTextures (this w)) ∧
    ∀ name, name ∈ new → name ∉ texture_names (gl_calls w).
Proof.
  intros Hok. pose proof Hok as [Hn Hl]. unfold DestroyGLTextures. run_M.
  set (n := m_loadedTextures (this w)) in *.
  destruct (for_range_invariant
    (λ j v, same_registry w v ∧
            ∃ new,
              texture_names (gl_calls v) = texture_names (gl_calls w) ++ new ∧
              tex_ID <$> take (Z.to_nat j) (m_textureIDs (this v)) = new ∧
              ∀ name, name ∈ new → name ∉ texture_names (gl_calls w))
    (λ i, name ← glGenTextures1; store_texture_ID i name)
    (Z.to_nat n) 0 w) as (w' & Hw' & Hsame & new & Hnames & Hids & Hnew).
  - split; [done|]. exists []. rewrite app_nil_r.
    split_and!; [done..|]. by intros name ?%elem_of_nil.
  - intros j v Hj [(Hs & Hc & Ht & Hm) (new & Hnames & Hids & Hnew)]. run_M.
    unfold store_texture_ID. run_M.
    assert (Hlen : length (m_textureIDs (this v)) = Z.to_nat MAX_TEXTURES)
      by (by rewrite <- (length_fmap tex_tag), Ht, length_fmap).
    destruct (texture_at_Some (this v) j) as [e He];
      [exact Hlen | unfold MAX_TEXTURES in *; lia |].
    unfold texture_at in *. cbn [this m_textureIDs]. rewrite He.
    eexists. split; [reflexivity|]. split.
    + split_and!; cbn [this m_pShaderManager m_loadedTextures m_textureIDs
                         m_objectMaterials]; try done.
      rewrite list_fmap_insert. cbn [tex_tag]. rewrite <- Ht.
      apply list_insert_id. rewrite list_lookup_fmap.
      destruct ((0 <=? j) && (j <? MAX_TEXTURES)); [|done].
      by rewrite He.
    + exists (new ++ [fresh_texture_name (gl_calls v)]).
      cbn [gl_calls this m_textureIDs]. split_and!.
      * rewrite texture_names_app, Hnames. cbn. by rewrite <- app_assoc.
      * replace (Z.to_nat (j + 1)) with (S (Z.to_nat j)) by lia.
        erewrite take_S_r
          by (apply list_lookup_insert_eq; unfold MAX_TEXTURES in *; lia).
        rewrite take_insert_ge by lia.
        by rewrite fmap_app, Hids.
      * intros name [Hin| ->%list_elem_of_singleton]%elem_of_app;
          [by apply Hnew|].
        intros Hold. apply (fresh_texture_name_fresh (gl_calls v)).
        rewrite Hnames. apply elem_of_app. by left.
  - exists w', new. pose proof Hsame as (_ & Hc & _).
    replace (0 + Z.of_nat (Z.to_nat n)) with n in Hids by lia.
    split; [exact Hw'|]. split; [exact Hnames|].
    assert (Hreg : tex_ID <$> registered_entries (this w') = new).
    { unfold registered_entries. by rewrite Hc. }
    split; [exact Hreg|]. split; [|exact Hnew].
    rewrite <- Hids, length_fmap, length_take.
    assert (length (m_textureIDs (this w')) = Z.to_nat MAX_TEXTURES).
    { destruct Hsame as (_ & _ & Ht & _).
      by rewrite <- (length_fmap tex_tag), Ht, length_fmap. }
    unfold MAX_TEXTURES in *. lia.
Qed.

(** One texture, named 1, is registered and bound; afterwards the registry
    holds a new name and name 1 is still allocated. *)
Lemma DestroyGLTextures_replaces_names_witness :
  let w := world_after [OpCreateGLTexture "a.jpg" "A"; OpBindGLTextures] in
  registry_ok (this w) ∧
  texture_names (gl_calls w) = [1] ∧
  ∃ w' new,
    DestroyGLTextures w = Some ((), w') ∧
    texture_names (gl_calls w') = [1] ++ new ∧
    tex_ID <$> registered_entries (this w') = new ∧
    length new = 1%nat ∧ 1 ∉ new.
Proof.
  intros w.
  assert (Hok : registry_ok (this w))
    by (split; vm_compute; [intuition discriminate | reflexivity]).
  assert (Hold : texture_names (gl_calls w) = [1]) by reflexivity.
  split; [exact Hok|]. split; [exact Hold|].
  destruct (DestroyGLTextures_replaces_names w Hok)
    as (w' & new & Hrun & Hnames & Hids & Hlen & Hnew).
  exists w', new. rewrite Hold in Hnames.
  split; [exact Hrun|]. split; [exact Hnames|]. split; [exact Hids|].
  split; [exact Hlen|].
  intros Hin. apply (Hnew 1 Hin). rewrite Hold. apply list_elem_of_singleton.
  reflexivity.
Defined.

(** ** Further properties: material registry *)






